(** * server.js: the OpenAI to NVIDIA NIM proxy, embedded in Rocq

    The embedding follows [src/server.js] top to bottom: the JavaScript
    values the handlers inspect, the configuration read from the
    environment, the [MODEL_MAPPING] object, the four routes and the
    catch-all, and the chat-completions handler with its [try]/[catch].

    Conventions.
    - A JavaScript string is a [string] of bytes (UTF-8), a JSON number is
      a binary64 [float], an integer produced by the platform (a clock
      reading, an HTTP status) is a [Z].
    - Object literals built by the handlers are records; data that only
      passes through (request body, upstream body) stays a [value].
    - What a handler does to the outside (the upstream call, the calls on
      [res]) is recorded as a list of [effect]s, in program order.
      [console.log] and [console.error] are not recorded.
    - The middleware of lines 10-11 is [cors] and [express_json]; [app]
      is the table of the routes registered on lines 31-177, and [server]
      runs the middleware and then the routes. What [express.json()]
      makes of the bytes of a body is given with the request.
    - The object literal of lines 18-28 lacks the comma that ends line 25;
      the table below is the literal with that comma in place. *)

From Stdlib Require Import ZArith String List Bool Ascii Lia.
From Stdlib Require Import Floats.PrimFloat.
From Stdlib Require Import DecimalString DecimalPos DecimalZ.
Import ListNotations.

Set Warnings "-register-all,-inexact-float".
Open Scope string_scope.
Open Scope Z_scope.

(** ** JavaScript values *)

Module JS.

(** Events of a Node readable stream, as the handler subscribes to them. *)
Inductive stream_event : Type :=
| on_data (chunk : string)
| on_end
| on_error (err : string).

Inductive value : Type :=
| VUndefined
| VNull
| VBool (b : bool)
| VNum (x : float)
| VStr (s : string)
| VArr (elems : list value)
| VObj (props : list (string * value))
| VNative (name : string)          (* a built-in function of Object.prototype *)
| VObjectPrototype                 (* %Object.prototype% *)
| VStream (events : list stream_event).  (* a readable stream and what it will emit *)

(** What the engine throws, and what a rejected [axios.post] carries:
    [message] always, [response] when the upstream answered. *)
Record http_response : Type := mk_response {
  status : Z;
  data : value
}.

Record error : Type := mk_error {
  message : string;
  response : option http_response
}.

Definition TypeError (msg : string) : error := mk_error msg None.

Inductive completion (A : Type) : Type :=
| Normal (a : A)
| Throw (e : error).
Arguments Normal {A} a.
Arguments Throw {A} e.

(** ToBoolean: [undefined], [null], [false], [+0], [-0], [NaN] and the
    empty string are falsy, everything else is truthy. *)
Definition ToBoolean (v : value) : bool :=
  match v with
  | VUndefined | VNull => false
  | VBool b => b
  | VNum x => negb (is_zero x || is_nan x)
  | VStr s => negb (s =? "")%string
  | VArr _ | VObj _ | VNative _ | VObjectPrototype | VStream _ => true
  end.

(** [a || b] *)
Definition or_else (a b : value) : value :=
  if ToBoolean a then a else b.

Definition is_nullish (v : value) : bool :=
  match v with
  | VUndefined | VNull => true
  | _ => false
  end.

(** Own properties of an object literal or of a parsed JSON object. *)
Fixpoint own {A : Type} (props : list (string * A)) (k : string) : option A :=
  match props with
  | [] => None
  | (k', v) :: rest => if (k' =? k)%string then Some v else own rest k
  end.

(** The properties every ordinary object inherits from Object.prototype. *)
Definition Object_prototype_names : list string :=
  [ "constructor"; "__defineGetter__"; "__defineSetter__"; "hasOwnProperty";
    "__lookupGetter__"; "__lookupSetter__"; "isPrototypeOf";
    "propertyIsEnumerable"; "toString"; "valueOf"; "toLocaleString" ].

Definition Object_prototype_get (k : string) : value :=
  if (k =? "__proto__")%string then VObjectPrototype
  else if existsb (String.eqb k) Object_prototype_names then VNative k
  else VUndefined.

(** [o[k]] on an ordinary object with the given own properties: the own
    property, else the one inherited from Object.prototype. *)
Definition lookup (props : list (string * value)) (k : string) : value :=
  match own props k with
  | Some v => v
  | None => Object_prototype_get k
  end.

(** [v[k]] for a [v] that is not nullish. Only parsed objects carry the
    names the handlers read ([model], [choices], [message], [error], ...);
    strings, numbers, booleans, arrays and streams have no property of
    those names, own or inherited. *)
Definition get (v : value) (k : string) : value :=
  match v with
  | VObj props => lookup props k
  | _ => VUndefined
  end.

Definition describe (v : value) : string :=
  match v with
  | VNull => "null"
  | _ => "undefined"
  end.

(** [v.k]: throws on [undefined] and [null] (V8's wording). *)
Definition dot (v : value) (k : string) : completion value :=
  if is_nullish v
  then Throw (TypeError ("Cannot read properties of " ++ describe v
                         ++ " (reading '" ++ k ++ "')"))
  else Normal (get v k).

(** [v?.k] *)
Definition opt_dot (v : value) (k : string) : value :=
  if is_nullish v then VUndefined else get v k.

Section ToString.

(** Number::toString, the engine's shortest round-trip rendering of a
    binary64; its digit generation is left to the engine. *)
Variable Number_toString : float -> string.

(** ToString, by way of ToPrimitive for objects. A parsed array has no own
    [toString] and goes through Array.prototype.join; a parsed object with
    no own [toString] renders as [[object Object]]; one with an own
    [toString] (never callable, it is JSON data) falls to [valueOf], which
    is either own and not callable or inherited and returns the object:
    TypeError. *)
Fixpoint ToString (v : value) : completion string :=
  match v with
  | VUndefined => Normal "undefined"
  | VNull => Normal "null"
  | VBool true => Normal "true"
  | VBool false => Normal "false"
  | VNum x => Normal (Number_toString x)
  | VStr s => Normal s
  | VArr elems =>
      (fix join (l : list value) : completion string :=
         match l with
         | [] => Normal ""
         | e :: rest =>
             match (if is_nullish e then Normal "" else ToString e) with
             | Throw err => Throw err
             | Normal s =>
                 match rest with
                 | [] => Normal s
                 | _ :: _ =>
                     match join rest with
                     | Throw err => Throw err
                     | Normal t => Normal (s ++ "," ++ t)
                     end
                 end
             end
         end) elems
  | VObj props =>
      match own props "toString" with
      | Some _ => Throw (TypeError "Cannot convert object to primitive value")
      | None => Normal "[object Object]"
      end
  | VNative name =>
      Normal ("function "
              ++ (if (name =? "constructor")%string then "Object" else name)
              ++ "() { [native code] }")
  | VObjectPrototype => Normal "[object Object]"
  | VStream _ => Normal "[object Object]"
  end.

(** ToPropertyKey: no symbols reach the handlers, so it is ToString. *)
Definition ToPropertyKey (v : value) : completion string := ToString v.

End ToString.

End JS.
Import JS.

(** ** Configuration (lines 7, 14, 15) *)

Record environment : Type := mk_env {
  env_PORT : option string;
  env_NIM_API_BASE : option string;
  env_NIM_API_KEY : option string
}.

(** [process.env.X]: a string, or [undefined] when the variable is unset. *)
Definition getenv (o : option string) : value :=
  match o with
  | Some s => VStr s
  | None => VUndefined
  end.

Definition PORT (env : environment) : value :=
  or_else (getenv (env_PORT env)) (VNum 10000).

Definition NIM_API_BASE (env : environment) : value :=
  or_else (getenv (env_NIM_API_BASE env))
          (VStr "https://integrate.api.nvidia.com/v1").

Definition NIM_API_KEY (env : environment) : value :=
  getenv (env_NIM_API_KEY env).

(** A template literal's rendering of a configuration value. *)
Definition template (v : value) : string :=
  match v with
  | VStr s => s
  | _ => "undefined"
  end.

(** ** The model table (lines 18-28) *)

Definition MODEL_MAPPING : list (string * value) :=
  [ ("gpt-3.5-turbo", VStr "meta/llama-3.1-8b-instruct");
    ("gpt-4", VStr "meta/llama-3.1-70b-instruct");
    ("gpt-4-turbo", VStr "meta/llama-3.1-405b-instruct");
    ("gpt-4o", VStr "meta/llama-3.1-405b-instruct");
    ("claude-3-opus", VStr "meta/llama-3.1-405b-instruct");
    ("claude-3-sonnet", VStr "meta/llama-3.1-70b-instruct");
    ("gemini-pro", VStr "meta/llama-3.1-70b-instruct");
    ("deepseek-v3.2", VStr "deepseek-ai/deepseek-v3.1");
    ("deepseek-r1-0528", VStr "deepseek-ai/deepseek-r1-0528") ].

(** [Object.keys(MODEL_MAPPING)] *)
Definition Object_keys {A : Type} (props : list (string * A)) : list string :=
  map fst props.

(** Line 82, on the property key of [model]:
    [MODEL_MAPPING[model] || MODEL_MAPPING['gpt-3.5-turbo']]. *)
Definition nimModel (key : string) : value :=
  or_else (lookup MODEL_MAPPING key) (lookup MODEL_MAPPING "gpt-3.5-turbo").

(** ** The upstream request (lines 85-91) *)

Module Nim.
Record request : Type := mk {
  model : value;
  messages : value;
  temperature : value;
  max_tokens : value;
  stream : value
}.
End Nim.

Definition default_temperature : float := 0x1.6666666666666p-1.  (* 0.7 *)

Definition nimRequest (nimModel messages temperature max_tokens stream : value)
  : Nim.request :=
  {| Nim.model := nimModel;
     Nim.messages := messages;
     Nim.temperature := or_else temperature (VNum default_temperature);
     Nim.max_tokens := or_else max_tokens (VNum 2048);
     Nim.stream := or_else stream (VBool false) |}.

(** ** The caller-facing bodies *)

(** The Error Envelope, [{ error: { message, type, code } }]; the two
    envelopes built outside the [catch] have no [code]. *)
Module Envelope.
Record t : Type := mk {
  message : value;
  type : string;
  code : option Z
}.
End Envelope.

Module Choice.
Record t : Type := mk {
  index : value;
  role : value;            (* message.role *)
  content : value;         (* message.content *)
  finish_reason : value
}.
End Choice.

Module OpenAI.
Record chat_completion : Type := mk {
  id : string;
  object : string;
  created : Z;
  model : value;
  choices : list Choice.t;
  usage : value
}.
End OpenAI.

Module Model.
Record t : Type := mk {
  id : string;
  object : string;
  created : Z;
  owned_by : string
}.
End Model.

Inductive body : Type :=
| health_body (status service : string) (api_configured : bool)
| root_body (service status : string) (endpoints : list (string * string))
| models_body (object : string) (data : list Model.t)
| error_body (error : Envelope.t)
| completion_body (openaiResponse : OpenAI.chat_completion).

(** ** Effects *)

Record axios_config : Type := mk_config {
  headers : list (string * string);
  responseType : string;
  timeout : Z
}.

Inductive effect : Type :=
| axios_post (url : string) (data : Nim.request) (config : axios_config)
| res_status (code : Z)
| res_json (b : body)
| res_setHeader (name v : string)
| res_write (chunk : string)
| res_end
| finalhandler (status : Z).  (* Express's default error handler answers with
                                 this status and its error page *)

(** How the promise of [axios.post] settles. *)
Inductive settled : Type :=
| resolved (response : http_response)
| rejected (error : JS.error).

(** What the handlers take from the platform: the clock ([Date_now n] is
    the reading of the n-th call of [Date.now()] while a request is
    handled), the engine's number rendering, and the upstream. *)
Record runtime : Type := mk_runtime {
  Date_now : nat -> Z;
  Number_toString : float -> string;
  upstream : string -> Nim.request -> axios_config -> settled
}.

(** A computation of a handler: the effects performed so far, and either a
    value or the exception that stopped it. *)
Definition M (A : Type) : Type := (list effect * completion A)%type.

Definition ret {A : Type} (a : A) : M A := ([], Normal a).

Definition bind {A B : Type} (m : M A) (k : A -> M B) : M B :=
  match m with
  | (tr, Normal a) => let '(tr', r) := k a in ((tr ++ tr')%list, r)
  | (tr, Throw e) => (tr, Throw e)
  end.

Definition emit (e : effect) : M unit := ([e], Normal tt).

Definition lift {A : Type} (c : completion A) : M A := ([], c).

Definition throw {A : Type} (e : JS.error) : M A := ([], Throw e).

Definition try_catch (m : M unit) (handler : JS.error -> M unit) : M unit :=
  match m with
  | (tr, Normal tt) => (tr, Normal tt)
  | (tr, Throw e) => let '(tr', r) := handler e in ((tr ++ tr')%list, r)
  end.

Declare Scope js_scope.
Delimit Scope js_scope with js.
Notation "x <- m ;; k" := (bind m (fun x => k))
  (at level 61, m at next level, right associativity) : js_scope.
Notation "' pat <- m ;; k" := (bind m (fun x => match x with pat => k end))
  (at level 61, pat pattern, m at next level, right associativity) : js_scope.
Notation "m ;; k" := (bind m (fun _ => k))
  (at level 61, right associativity) : js_scope.

Fixpoint mapM {A B : Type} (f : A -> M B) (l : list A) : M (list B) :=
  match l with
  | [] => ret []
  | a :: rest => (b <- f a ;; bs <- mapM f rest ;; ret (b :: bs))%js
  end.

(** [await axios.post(url, data, config)] *)
Definition await_axios_post (rt : runtime) (url : string) (data : Nim.request)
    (config : axios_config) : M http_response :=
  (emit (axios_post url data config) ;;
   match upstream rt url data config with
   | resolved response => ret response
   | rejected error => throw error
   end)%js.

(** ** The routes *)

Definition service_name : string := "OpenAI to NVIDIA NIM Proxy".

(** [GET /health] (lines 31-37) *)
Definition health (env : environment) : M unit :=
  emit (res_json (health_body "ok" service_name (ToBoolean (NIM_API_KEY env)))).

(** [GET /] (lines 40-50) *)
Definition root : M unit :=
  emit (res_json (root_body service_name "running"
          [ ("health", "/health"); ("models", "/v1/models");
            ("chat", "/v1/chat/completions") ])).

(** [GET /v1/models] (lines 53-65): one entry per key, each with its own
    clock reading. *)
Fixpoint models_from (rt : runtime) (n : nat) (keys : list string) : list Model.t :=
  match keys with
  | [] => []
  | model :: rest =>
      {| Model.id := model; Model.object := "model";
         Model.created := Date_now rt n; Model.owned_by := "nvidia-nim-proxy" |}
      :: models_from rt (S n) rest
  end.

Definition models (rt : runtime) : M unit :=
  emit (res_json (models_body "list" (models_from rt 0 (Object_keys MODEL_MAPPING)))).

(** The destructuring of line 79. *)
Definition destructure (req_body : value)
  : completion (value * value * value * value * value) :=
  if is_nullish req_body
  then Throw (TypeError ("Cannot destructure property 'model' of 'req.body' as it is "
                         ++ describe req_body ++ "."))
  else Normal (get req_body "model", get req_body "messages",
               get req_body "temperature", get req_body "max_tokens",
               get req_body "stream").

(** The three listeners of lines 115-126, run on one event of the
    upstream stream. A Node stream emits nothing after its [end] or its
    [error]; the relay itself does not rely on it. *)
Definition listener (ev : stream_event) : list effect :=
  match ev with
  | on_data chunk => [res_write chunk]
  | on_end => [res_end]
  | on_error _ => [res_end]
  end.

Definition relay (events : list stream_event) : list effect :=
  flat_map listener events.

(** [response.data.on(...)]: subscribes when the data is a stream. *)
Definition subscribe (data : value) : M unit :=
  match data with
  | VStream events => (relay events, Normal tt)
  | VUndefined | VNull =>
      throw (TypeError ("Cannot read properties of " ++ describe data
                        ++ " (reading 'on')"))
  | _ => throw (TypeError "response.data.on is not a function")
  end.

(** The callback of [choices.map] (lines 134-141). *)
Definition shape_choice (choice : value) : completion Choice.t :=
  match dot choice "index" with
  | Throw e => Throw e
  | Normal index =>
  match dot choice "message" with
  | Throw e => Throw e
  | Normal message =>
  match dot message "role" with
  | Throw e => Throw e
  | Normal role =>
  match dot message "content" with
  | Throw e => Throw e
  | Normal content =>
  match dot choice "finish_reason" with
  | Throw e => Throw e
  | Normal finish_reason =>
      Normal {| Choice.index := index; Choice.role := role;
                Choice.content := content;
                Choice.finish_reason := finish_reason |}
  end end end end end.

(** [response.data.choices.map(...)] *)
Definition map_choices (choices : value) : M (list Choice.t) :=
  match choices with
  | VArr elems => mapM (fun choice => lift (shape_choice choice)) elems
  | VUndefined | VNull =>
      throw (TypeError ("Cannot read properties of " ++ describe choices
                        ++ " (reading 'map')"))
  | _ => throw (TypeError "response.data.choices.map is not a function")
  end.

(** The template literal of line 130 on a clock reading. *)
Definition chatcmpl_id (now : Z) : string :=
  "chatcmpl-" ++ NilZero.string_of_int (Z.to_int now).

Definition zero_usage : value :=
  VObj [ ("prompt_tokens", VNum 0); ("completion_tokens", VNum 0);
         ("total_tokens", VNum 0) ].

(** Lines 129-147. *)
Definition openaiResponse (rt : runtime) (model : value) (data : value)
  : M OpenAI.chat_completion :=
  (choices <- lift (dot data "choices") ;;
   choices <- map_choices choices ;;
   usage <- lift (dot data "usage") ;;
   ret {| OpenAI.id := chatcmpl_id (Date_now rt 0);
          OpenAI.object := "chat.completion";
          OpenAI.created := Date_now rt 1 / 1000;
          OpenAI.model := model;
          OpenAI.choices := choices;
          OpenAI.usage := or_else usage zero_usage |})%js.

(** Lines 156-157. *)
Definition statusCode (error : JS.error) : Z :=
  match response error with
  | Some r => if status r =? 0 then 500 else status r
  | None => 500
  end.

Definition errorMessage (error : JS.error) : value :=
  or_else
    (match response error with
     | Some r => opt_dot (opt_dot (data r) "error") "message"
     | None => VUndefined
     end)
    (VStr (message error)).

(** The [catch] block (lines 153-166). *)
Definition on_catch (error : JS.error) : M unit :=
  (emit (res_status (statusCode error)) ;;
   emit (res_json (error_body
     {| Envelope.message := errorMessage error;
        Envelope.type := "nvidia_api_error";
        Envelope.code := Some (statusCode error) |})))%js.

Definition configuration_error : Envelope.t :=
  {| Envelope.message := VStr "NIM_API_KEY não configurada no servidor";
     Envelope.type := "configuration_error";
     Envelope.code := None |}.

(** Line 82 on the [model] of the body: the property key, then the lookup. *)
Definition nimModel_of (rt : runtime) (model : value) : completion value :=
  match ToPropertyKey (Number_toString rt) model with
  | Normal key => Normal (nimModel key)
  | Throw e => Throw e
  end.

Definition url (env : environment) : string :=
  template (NIM_API_BASE env) ++ "/chat/completions".

Definition config (env : environment) (stream : value) : axios_config :=
  {| headers := [ ("Authorization", "Bearer " ++ template (NIM_API_KEY env));
                  ("Content-Type", "application/json") ];
     responseType := if ToBoolean stream then "stream" else "json";
     timeout := 60000 |}.

(** Lines 109-151: what the handler does with the upstream response. *)
Definition respond (rt : runtime) (model stream : value) (response : http_response)
  : M unit :=
  (if ToBoolean stream then
     (emit (res_setHeader "Content-Type" "text/event-stream") ;;
      emit (res_setHeader "Cache-Control" "no-cache") ;;
      emit (res_setHeader "Connection" "keep-alive") ;;
      subscribe (data response))
   else
     (openaiResponse <- openaiResponse rt model (data response) ;;
      emit (res_json (completion_body openaiResponse))))%js.

(** The [try] block (lines 70-151). *)
Definition try_block (env : environment) (rt : runtime) (req_body : value)
  : M unit :=
  if negb (ToBoolean (NIM_API_KEY env)) then
    (emit (res_status 500) ;;
     emit (res_json (error_body configuration_error)))%js
  else
    ('(model, messages, temperature, max_tokens, stream)
        <- lift (destructure req_body) ;;
     nimModel <- lift (nimModel_of rt model) ;;
     response <- await_axios_post rt (url env)
       (nimRequest nimModel messages temperature max_tokens stream)
       (config env stream) ;;
     respond rt model stream response)%js.

(** [POST /v1/chat/completions] (lines 68-167). *)
Definition chat_completions (env : environment) (rt : runtime) (req_body : value)
  : M unit :=
  try_catch (try_block env rt req_body) on_catch.

(** The catch-all (lines 170-177). *)
Definition not_found (path : string) : Envelope.t :=
  {| Envelope.message := VStr ("Endpoint " ++ path ++ " não encontrado");
     Envelope.type := "not_found";
     Envelope.code := None |}.

Definition catch_all (path : string) : M unit :=
  (emit (res_status 404) ;;
   emit (res_json (error_body (not_found path))))%js.

(** ** Routing

    Express tries the routes in the order of their registration and runs
    the first whose method and path match. With the router's defaults a
    path matches without regard to case and with or without a trailing
    slash, and a [GET] route also serves [HEAD]. *)

Record request : Type := mk_request {
  method : string;
  path : string;
  req_body : value
}.

Definition lower (c : ascii) : ascii :=
  let n := nat_of_ascii c in
  if ((65 <=? n) && (n <=? 90))%nat then ascii_of_nat (n + 32) else c.

Fixpoint toLowerCase (s : string) : string :=
  match s with
  | EmptyString => EmptyString
  | String c rest => String (lower c) (toLowerCase rest)
  end.

Definition method_matches (verb m : string) : bool :=
  ((m =? verb) || ((verb =? "GET") && (m =? "HEAD")))%string.

Definition path_matches (route p : string) : bool :=
  let p := toLowerCase p in
  if (route =? "/")%string
  then ((p =? "/") || (p =? ""))%string
  else ((p =? route) || (p =? route ++ "/"))%string.

Definition handles (verb route : string) (req : request) : bool :=
  method_matches verb (method req) && path_matches route (path req).


Definition app (env : environment) (rt : runtime) (req : request) : M unit :=
  if handles "GET" "/health" req then health env
  else if handles "GET" "/" req then root
  else if handles "GET" "/v1/models" req then models rt
  else if handles "POST" "/v1/chat/completions" req
       then chat_completions env rt (req_body req)
  else catch_all (path req).

(** ** The middleware (lines 10-11) *)

(** What [express.json()] makes of the body of a request: it leaves a value
    in [req.body] and goes on, or it refuses the body (400 for bytes that
    are not JSON, 413 for too many, 415 for an encoding it does not read)
    and hands the error to Express. *)
Inductive body_parser : Type :=
| accepted (body : value)
| refused (status : Z).

(** A request as it arrives, before the middleware. *)
Record incoming : Type := mk_incoming {
  in_method : string;
  in_path : string;
  access_control_request_headers : option string;
  json : body_parser
}.

Definition upper (c : ascii) : ascii :=
  let n := nat_of_ascii c in
  if ((97 <=? n) && (n <=? 122))%nat then ascii_of_nat (n - 32) else c.

Fixpoint toUpperCase (s : string) : string :=
  match s with
  | EmptyString => EmptyString
  | String c rest => String (upper c) (toUpperCase rest)
  end.

(** [cors()] with its defaults: an [OPTIONS] request is a preflight and is
    answered here with 204; any other request gets the allow-origin header
    and goes on. The result tells whether [next()] was called. *)
Definition cors (req : incoming) : M bool :=
  (if (toUpperCase (in_method req) =? "OPTIONS")%string then
     (emit (res_setHeader "Access-Control-Allow-Origin" "*") ;;
      emit (res_setHeader "Access-Control-Allow-Methods"
                          "GET,HEAD,PUT,PATCH,POST,DELETE") ;;
      emit (res_setHeader "Vary" "Access-Control-Request-Headers") ;;
      match access_control_request_headers req with
      | Some allowed =>
          if (allowed =? "")%string then ret tt
          else emit (res_setHeader "Access-Control-Allow-Headers" allowed)
      | None => ret tt
      end ;;
      emit (res_status 204) ;;
      emit (res_setHeader "Content-Length" "0") ;;
      emit res_end ;;
      ret false)
   else
     (emit (res_setHeader "Access-Control-Allow-Origin" "*") ;;
      ret true))%js.

(** The application: [cors()], then [express.json()], then the routes. A
    body that [express.json()] refuses goes to Express's default error
    handler and to no route. *)
Definition server (env : environment) (rt : runtime) (req : incoming) : M unit :=
  (continue <- cors req ;;
   if continue : bool then
     match json req with
     | accepted body => app env rt (mk_request (in_method req) (in_path req) body)
     | refused status => emit (finalhandler status)
     end
   else ret tt)%js.

(** ** Reading a trace *)

Definition trace {A : Type} (m : M A) : list effect := fst m.

(** The requests handed to [axios.post], and how many there were. *)
Definition sent_upstream (tr : list effect) : list Nim.request :=
  flat_map (fun e => match e with axios_post _ d _ => [d] | _ => [] end) tr.

Definition upstream_calls (tr : list effect) : nat :=
  length (sent_upstream tr).

(** The chat responses handed to [res.json]. *)
Definition completions (tr : list effect) : list OpenAI.chat_completion :=
  flat_map (fun e => match e with
                     | res_json (completion_body r) => [r]
                     | _ => []
                     end) tr.

(** ** The vocabulary of the specification *)

(** The message of a structured upstream error body, in the words of the
    specification: the upstream answered, its body is an object whose
    [error] is an object, and that object carries a (truthy) [message]. *)
Definition structured_message (e : JS.error) : option value :=
  match response e with
  | Some r =>
      match data r with
      | VObj props =>
          match own props "error" with
          | Some (VObj error_props) =>
              match own error_props "message" with
              | Some m => if ToBoolean m then Some m else None
              | None => None
              end
          | _ => None
          end
      | _ => None
      end
  | None => None
  end.

(** The upstream status when the upstream answered, else 500. *)
Definition upstream_status_or_500 (e : JS.error) : Z :=
  match response e with
  | Some r => status r
  | None => 500
  end.

(** The choice the caller receives for an upstream choice, in the words of
    the specification: index, role, content and finish reason copied. *)
Definition copied (choice : value) : Choice.t :=
  {| Choice.index := get choice "index";
     Choice.role := get (get choice "message") "role";
     Choice.content := get (get choice "message") "content";
     Choice.finish_reason := get choice "finish_reason" |}.

(** An upstream choice the callback can read: a value with a [message]. *)
Definition well_shaped (choice : value) : Prop :=
  is_nullish choice = false /\ is_nullish (get choice "message") = false.

(** ** Sample inputs, used by the examples below *)

Definition sample_env : environment := mk_env None None (Some "nvapi-key").

Definition unconfigured_env : environment := mk_env None None None.

Definition sample_runtime (now : Z) (u : settled) : runtime :=
  {| Date_now := fun n => now + Z.of_nat n;
     Number_toString := fun _ => "0";
     upstream := fun _ _ _ => u |}.

Definition sample_messages : value :=
  VArr [VObj [("role", VStr "user"); ("content", VStr "hello")]].

Definition sample_request : value :=
  VObj [("model", VStr "gpt-4"); ("messages", sample_messages);
        ("stream", VBool false)].

Definition sample_reply (content : string) : settled :=
  resolved (mk_response 200
    (VObj [("choices",
            VArr [VObj [("index", VNum 0);
                        ("message", VObj [("role", VStr "assistant");
                                          ("content", VStr content)]);
                        ("finish_reason", VStr "stop")]])])).

Definition rate_limited : settled :=
  rejected (mk_error "Request failed with status code 429"
    (Some (mk_response 429
       (VObj [("error", VObj [("message", VStr "rate limited")])])))).

Definition zero_temperature_request : list (string * value) :=
  [("model", VStr "gpt-4"); ("messages", sample_messages);
   ("temperature", VNum 0); ("max_tokens", VNum 0)].

Definition explicit_request : list (string * value) :=
  [("model", VStr "gpt-4"); ("messages", sample_messages);
   ("temperature", VNum 0.5); ("stream", VBool false)].

Definition network_failure : settled :=
  rejected (mk_error "timeout of 60000ms exceeded" None).

Definition malformed_reply : settled :=
  resolved (mk_response 200 (VObj [("detail", VStr "no choices here")])).

Definition hi_choice : value :=
  VObj [("index", VNum 0);
        ("message", VObj [("role", VStr "assistant"); ("content", VStr "hi")]);
        ("finish_reason", VStr "stop")].

Definition newline : string := String (ascii_of_nat 10) EmptyString.

Definition sample_chunks : list string :=
  [ "data: a" ++ newline ++ newline; "data: b" ++ newline ++ newline ].

Definition streaming_request : list (string * value) :=
  [("model", VStr "gpt-4"); ("messages", sample_messages); ("stream", VBool true)].

Definition broken_stream : settled :=
  resolved (mk_response 200
    (VStream (map on_data sample_chunks ++ [on_error "socket hang up"]))).

(** ** More readings of a trace *)

(** The calls of [axios.post], with all three arguments. *)
Definition upstream_posts (tr : list effect)
  : list (string * Nim.request * axios_config) :=
  flat_map (fun e => match e with
                     | axios_post u d c => [(u, d, c)]
                     | _ => []
                     end) tr.

(** The bodies handed to [res.json]. *)
Definition json_bodies (tr : list effect) : list body :=
  flat_map (fun e => match e with res_json b => [b] | _ => [] end) tr.

(** The chunks handed to [res.write], and the number of [res.end()]. *)
Definition writes (tr : list effect) : list string :=
  flat_map (fun e => match e with res_write chunk => [chunk] | _ => [] end) tr.

Definition ends (tr : list effect) : nat :=
  length (filter (fun e => match e with res_end => true | _ => false end) tr).

(** The chunks a stream emits, and the number of its [end] and [error]
    events. *)
Definition data_chunks (events : list stream_event) : list string :=
  flat_map (fun ev => match ev with on_data chunk => [chunk] | _ => [] end) events.

Definition terminations (events : list stream_event) : nat :=
  length (filter (fun ev => match ev with on_data _ => false | _ => true end) events).

(** The envelope the [catch] sends for an exception the engine raised. *)
Definition internal_error (msg : string) : Envelope.t :=
  {| Envelope.message := VStr msg;
     Envelope.type := "nvidia_api_error";
     Envelope.code := Some 500 |}.

(** A choice the callback of [choices.map] can read, as a test. *)
Definition readable (choice : value) : bool :=
  negb (is_nullish choice) && negb (is_nullish (get choice "message")).

(** An upstream body the non-streaming path can reshape: not nullish, with
    an array of readable choices under [choices]. *)
Definition reshapable (data : value) : Prop :=
  is_nullish data = false
  /\ exists choices, get data "choices" = VArr choices
                     /\ forallb readable choices = true.

(** Array.prototype.join with a comma, over a rendering of the elements:
    the loop inside [ToString], on its own. *)
Fixpoint join (render : value -> completion string) (l : list value)
  : completion string :=
  match l with
  | [] => Normal ""
  | e :: rest =>
      match (if is_nullish e then Normal "" else render e) with
      | Throw err => Throw err
      | Normal s =>
          match rest with
          | [] => Normal s
          | _ :: _ =>
              match join render rest with
              | Throw err => Throw err
              | Normal t => Normal (s ++ "," ++ t)
              end
          end
      end
  end.

Definition default_base : string := "https://integrate.api.nvidia.com/v1".

Definition model_with_toString : value :=
  VObj [("model", VObj [("toString", VStr "gpt-4")]); ("messages", sample_messages)].

Definition unreadable_reply : settled :=
  resolved (mk_response 200 (VObj [("choices", VArr [hi_choice; VNull])])).

Definition rate_limit_bytes : string :=
  "{" ++ String (ascii_of_nat 34) "error" ++ String (ascii_of_nat 34) ":"
  ++ String (ascii_of_nat 34) "rate limited" ++ String (ascii_of_nat 34) "}".

(** A 429 for a streamed request: axios hands the body over unread. *)
Definition streamed_rate_limit : settled :=
  rejected (mk_error "Request failed with status code 429"
    (Some (mk_response 429 (VStream [on_data rate_limit_bytes; on_end])))).

Definition endless_stream : settled :=
  resolved (mk_response 200 (VStream (map on_data sample_chunks))).

(** ** The bytes of a JSON document *)











(** * Properties *)

(** ** The handler monad *)

Lemma trace_bind {A B : Type} (m : M A) (k : A -> M B) :
  trace (bind m k) =
  (trace m ++ match snd m with
              | Normal a => trace (k a)
              | Throw _ => []
              end)%list.
Proof.
  destruct m as [tr [a | e]]; unfold trace; simpl.
  - destruct (k a); reflexivity.
  - now rewrite app_nil_r.
Qed.

Lemma trace_try_catch (m : M unit) (h : JS.error -> M unit) :
  trace (try_catch m h) =
  (trace m ++ match snd m with
              | Normal _ => []
              | Throw e => trace (h e)
              end)%list.
Proof.
  destruct m as [tr [[] | e]]; unfold trace; simpl.
  - now rewrite app_nil_r.
  - destruct (h e); reflexivity.
Qed.

Lemma bind_lift_normal {A B : Type} (a : A) (k : A -> M B) :
  bind (lift (Normal a)) k = k a.
Proof. unfold bind, lift. destruct (k a); reflexivity. Qed.

Lemma sent_upstream_app (t1 t2 : list effect) :
  sent_upstream (t1 ++ t2) = (sent_upstream t1 ++ sent_upstream t2)%list.
Proof. apply flat_map_app. Qed.

Lemma completions_app (t1 t2 : list effect) :
  completions (t1 ++ t2) = (completions t1 ++ completions t2)%list.
Proof. apply flat_map_app. Qed.

(** Reshaping the choices performs no effect. *)
Lemma mapM_lift_trace {A B : Type} (f : A -> completion B) (l : list A) :
  trace (mapM (fun a => lift (f a)) l) = [].
Proof.
  induction l as [| a rest IH]; [reflexivity |].
  cbn [mapM]. destruct (f a) as [b | e].
  - rewrite bind_lift_normal, trace_bind, IH. simpl.
    destruct (snd (mapM _ rest)); reflexivity.
  - reflexivity.
Qed.

Lemma map_choices_trace (choices : value) : trace (map_choices choices) = [].
Proof.
  destruct choices; try reflexivity. apply mapM_lift_trace.
Qed.

Lemma openaiResponse_trace (rt : runtime) (model data : value) :
  trace (openaiResponse rt model data) = [].
Proof.
  unfold openaiResponse.
  destruct (dot data "choices") as [c | e]; [| reflexivity].
  rewrite bind_lift_normal, trace_bind, map_choices_trace. simpl.
  destruct (snd (map_choices c)); [| reflexivity].
  destruct (dot data "usage"); reflexivity.
Qed.

Lemma relay_sent_upstream (events : list stream_event) :
  sent_upstream (relay events) = [].
Proof.
  induction events as [| ev rest IH]; [reflexivity |].
  unfold relay in *. simpl. rewrite sent_upstream_app, IH.
  destruct ev; reflexivity.
Qed.

Lemma subscribe_sent_upstream (data : value) :
  sent_upstream (trace (subscribe data)) = [].
Proof.
  destruct data; try reflexivity. apply relay_sent_upstream.
Qed.

Lemma respond_sent_upstream (rt : runtime) (model stream : value) (r : http_response) :
  sent_upstream (trace (respond rt model stream r)) = [].
Proof.
  unfold respond. destruct (ToBoolean stream).
  - rewrite !trace_bind. simpl. apply subscribe_sent_upstream.
  - rewrite trace_bind, openaiResponse_trace. simpl.
    destruct (snd (openaiResponse rt model (data r))); reflexivity.
Qed.

(** ** The upstream call *)

Lemma await_axios_post_eq (rt : runtime) (u : string) (d : Nim.request)
    (c : axios_config) :
  await_axios_post rt u d c =
  ([axios_post u d c],
   match upstream rt u d c with
   | resolved r => Normal r
   | rejected e => Throw e
   end).
Proof.
  unfold await_axios_post. destruct (upstream rt u d c); reflexivity.
Qed.

(** With a credential, a body that can be destructured and a model that
    has a property key, the [try] block is the upstream call followed by
    the handling of its response. *)
Lemma try_block_configured (env : environment) (rt : runtime) (req_body v : value) :
  ToBoolean (NIM_API_KEY env) = true ->
  is_nullish req_body = false ->
  nimModel_of rt (get req_body "model") = Normal v ->
  try_block env rt req_body =
  bind (await_axios_post rt (url env)
          (nimRequest v (get req_body "messages") (get req_body "temperature")
                      (get req_body "max_tokens") (get req_body "stream"))
          (config env (get req_body "stream")))
       (respond rt (get req_body "model") (get req_body "stream")).
Proof.
  intros Hkey Hbody Hmodel. unfold try_block, destructure.
  rewrite Hkey, Hbody. cbn [negb].
  rewrite bind_lift_normal, Hmodel, bind_lift_normal. reflexivity.
Qed.

(** The requests a run of the handler hands to [axios.post]: one, built by
    [nimRequest] from the fields of the body, or none. *)
Lemma chat_completions_sent_upstream (env : environment) (rt : runtime)
    (req_body : value) :
  sent_upstream (trace (chat_completions env rt req_body)) =
  if ToBoolean (NIM_API_KEY env) && negb (is_nullish req_body) then
    match nimModel_of rt (get req_body "model") with
    | Normal v =>
        [nimRequest v (get req_body "messages") (get req_body "temperature")
                    (get req_body "max_tokens") (get req_body "stream")]
    | Throw _ => []
    end
  else [].
Proof.
  unfold chat_completions. rewrite trace_try_catch, sent_upstream_app.
  assert (Hcatch : sent_upstream
            match snd (try_block env rt req_body) with
            | Normal _ => []
            | Throw e => trace (on_catch e)
            end = []) by (destruct (snd (try_block env rt req_body)); reflexivity).
  rewrite Hcatch, app_nil_r. clear Hcatch.
  destruct (ToBoolean (NIM_API_KEY env)) eqn:Hkey;
    [| unfold try_block; rewrite Hkey; reflexivity].
  destruct (is_nullish req_body) eqn:Hbody;
    [unfold try_block, destructure; rewrite Hkey, Hbody; reflexivity |].
  destruct (nimModel_of rt (get req_body "model")) as [v | e] eqn:Hmodel.
  - rewrite (try_block_configured env rt req_body v Hkey Hbody Hmodel).
    rewrite trace_bind, sent_upstream_app, await_axios_post_eq. cbn [trace fst snd].
    cbn [andb negb].
    destruct (upstream rt _ _ _);
      [rewrite respond_sent_upstream |]; reflexivity.
  - unfold try_block, destructure. rewrite Hkey, Hbody. cbn [negb].
    rewrite bind_lift_normal, Hmodel. reflexivity.
Qed.

(** ** Model resolution (line 82) *)

Lemma or_else_truthy (a b : value) :
  ToBoolean b = true -> ToBoolean (or_else a b) = true.
Proof.
  intros Hb. unfold or_else. destruct (ToBoolean a) eqn:Ha; assumption.
Qed.

Lemma or_else_true (a b : value) : ToBoolean a = true -> or_else a b = a.
Proof. intros Ha. unfold or_else. now rewrite Ha. Qed.

Lemma or_else_false (a b : value) : ToBoolean a = false -> or_else a b = b.
Proof. intros Ha. unfold or_else. now rewrite Ha. Qed.

(** Every value configured in the table is truthy. *)
Lemma MODEL_MAPPING_truthy (k : string) (v : value) :
  own MODEL_MAPPING k = Some v -> ToBoolean v = true.
Proof.
  unfold MODEL_MAPPING. cbn [own].
  repeat (match goal with
          | |- (if ?c then _ else _) = _ -> _ => destruct c
          end; [intros [= <-]; reflexivity |]).
  discriminate.
Qed.

(** A key of the table resolves to the value configured for it. *)
Lemma nimModel_configured (k : string) (v : value) :
  own MODEL_MAPPING k = Some v -> nimModel k = v.
Proof.
  intros Hk. unfold nimModel, lookup. rewrite Hk.
  apply or_else_true. now apply MODEL_MAPPING_truthy with k.
Qed.

(** A name that is neither a key of the table nor a property of
    Object.prototype resolves to the entry of ["gpt-3.5-turbo"]. *)
Lemma nimModel_absent (k : string) :
  own MODEL_MAPPING k = None ->
  Object_prototype_get k = VUndefined ->
  nimModel k = VStr "meta/llama-3.1-8b-instruct".
Proof.
  intros Hk Hproto. unfold nimModel, lookup at 1. rewrite Hk, Hproto.
  reflexivity.
Qed.

(** C3, at the identifier ["toString"]: it is not a key of the table, yet
    line 82 does not fall back to the entry of ["gpt-3.5-turbo"]; the
    lookup finds the function inherited from Object.prototype, and the
    handler puts that function in the [model] field of the request it
    hands to [axios.post]. *)
Theorem C3_inherited_name_shadows_default (rt : runtime) :
  own MODEL_MAPPING "toString" = None
  /\ own MODEL_MAPPING "gpt-3.5-turbo" = Some (VStr "meta/llama-3.1-8b-instruct")
  /\ nimModel_of rt (VStr "toString") = Normal (VNative "toString")
  /\ VNative "toString" <> VStr "meta/llama-3.1-8b-instruct"
  /\ map Nim.model
       (sent_upstream (trace (chat_completions sample_env rt
          (VObj [("model", VStr "toString"); ("messages", sample_messages)]))))
     = [VNative "toString"].
Proof.
  repeat split; try reflexivity.
  - discriminate.
  - rewrite chat_completions_sent_upstream. reflexivity.
Qed.

(** On a string, line 82 never throws and yields a truthy value, since
    ["gpt-3.5-turbo"] is a key of the table. *)
Lemma string_model_resolves (rt : runtime) (id : string) :
  In "gpt-3.5-turbo" (Object_keys MODEL_MAPPING)
  /\ exists v, nimModel_of rt (VStr id) = Normal v
               /\ ToBoolean v = true /\ v <> VUndefined.
Proof.
  split; [left; reflexivity |].
  exists (nimModel id). split; [reflexivity |].
  assert (Ht : ToBoolean (nimModel id) = true)
    by (apply or_else_truthy; reflexivity).
  split; [exact Ht |]. intros Hu. rewrite Hu in Ht. discriminate.
Qed.

(** ** The request built for the upstream (lines 85-91) *)

(** The fields of whatever request a run hands to [axios.post]. *)
Lemma sent_request_fields (env : environment) (rt : runtime)
    (props : list (string * value)) (r : Nim.request) :
  In r (sent_upstream (trace (chat_completions env rt (VObj props)))) ->
  Nim.messages r = lookup props "messages"
  /\ Nim.temperature r = or_else (lookup props "temperature") (VNum default_temperature)
  /\ Nim.max_tokens r = or_else (lookup props "max_tokens") (VNum 2048)
  /\ Nim.stream r = or_else (lookup props "stream") (VBool false).
Proof.
  rewrite chat_completions_sent_upstream.
  destruct (ToBoolean (NIM_API_KEY env) && negb (is_nullish (VObj props)));
    [| intros []].
  destruct (nimModel_of rt (get (VObj props) "model")); [| intros []].
  intros [<- | []]. repeat split.
Qed.

Lemma lookup_omitted (props : list (string * value)) (k : string) :
  own props k = None -> Object_prototype_get k = VUndefined ->
  lookup props k = VUndefined.
Proof. intros Hk Hp. unfold lookup. now rewrite Hk. Qed.

Lemma lookup_own (props : list (string * value)) (k : string) (v : value) :
  own props k = Some v -> lookup props k = v.
Proof. intros Hk. unfold lookup. now rewrite Hk. Qed.

(** C1, as the code has it: a request handed to the upstream carries
    temperature 0.7, max_tokens 2048 and stream false for the fields the
    body omits; a supplied value that is truthy passes through unchanged,
    and so does a supplied boolean [stream]. *)
Theorem C1_defaults_and_passthrough (env : environment) (rt : runtime)
    (props : list (string * value)) (r : Nim.request) :
  In r (sent_upstream (trace (chat_completions env rt (VObj props)))) ->
  (own props "temperature" = None -> Nim.temperature r = VNum 0.7)
  /\ (own props "max_tokens" = None -> Nim.max_tokens r = VNum 2048)
  /\ (own props "stream" = None -> Nim.stream r = VBool false)
  /\ (forall v, own props "temperature" = Some v -> ToBoolean v = true ->
        Nim.temperature r = v)
  /\ (forall v, own props "max_tokens" = Some v -> ToBoolean v = true ->
        Nim.max_tokens r = v)
  /\ (forall v, own props "stream" = Some v -> ToBoolean v = true ->
        Nim.stream r = v)
  /\ (forall b, own props "stream" = Some (VBool b) -> Nim.stream r = VBool b).
Proof.
  intros Hr.
  destruct (sent_request_fields env rt props r Hr) as (_ & Ht & Hm & Hs).
  rewrite Ht, Hm, Hs. clear Ht Hm Hs Hr.
  repeat split; intros.
  1-3: rewrite lookup_omitted by (assumption || reflexivity); reflexivity.
  1-3: erewrite lookup_own by eassumption; now apply or_else_true.
  erewrite lookup_own by eassumption. now destruct b.
Qed.

(** C10: a [temperature] or [max_tokens] supplied as zero does not reach
    the upstream: the request carries 0.7, respectively 2048, and not the
    value the caller supplied. *)
Theorem C10_zero_is_replaced_by_default (env : environment) (rt : runtime)
    (props : list (string * value)) (r : Nim.request) (x : float) :
  In r (sent_upstream (trace (chat_completions env rt (VObj props)))) ->
  PrimFloat.eqb x 0 = true ->
  (own props "temperature" = Some (VNum x) ->
     Nim.temperature r = VNum 0.7 /\ Nim.temperature r <> VNum x)
  /\ (own props "max_tokens" = Some (VNum x) ->
        Nim.max_tokens r = VNum 2048 /\ Nim.max_tokens r <> VNum x).
Proof.
  intros Hr Hx.
  destruct (sent_request_fields env rt props r Hr) as (_ & Ht & Hm & _).
  assert (Hfalsy : ToBoolean (VNum x) = false)
    by (unfold ToBoolean, is_zero; change zero with 0%float; now rewrite Hx).
  split; intros Hown.
  - rewrite Ht, (lookup_own _ _ _ Hown), (or_else_false _ _ Hfalsy).
    split; [reflexivity |].
    intros [= Heq]. rewrite <- Heq in Hx. vm_compute in Hx. discriminate.
  - rewrite Hm, (lookup_own _ _ _ Hown), (or_else_false _ _ Hfalsy).
    split; [reflexivity |].
    intros [= Heq]. rewrite <- Heq in Hx. vm_compute in Hx. discriminate.
Qed.

Lemma VNum_neq (x y : float) : PrimFloat.eqb x y = false -> is_nan x = false -> VNum x <> VNum y.
Proof.
  intros Hxy Hx [= Heq]. subst y. unfold is_nan in Hx.
  rewrite Hxy in Hx. discriminate.
Qed.

(** C1 as stated fails: a body that supplies [temperature: 0] explicitly
    reaches the upstream with a different temperature. *)
Lemma C1_explicit_zero_does_not_pass_through :
  exists r : Nim.request,
    In r (sent_upstream (trace (chat_completions sample_env
            (sample_runtime 0 (sample_reply "hi"))
            (VObj zero_temperature_request))))
    /\ own zero_temperature_request "temperature" = Some (VNum 0)
    /\ Nim.temperature r <> VNum 0.
Proof.
  eexists. split; [left; reflexivity |]. split; [reflexivity |].
  apply VNum_neq; reflexivity.
Qed.

Lemma C1_defaults_and_passthrough_witness :
  exists r : Nim.request,
    In r (sent_upstream (trace (chat_completions sample_env
            (sample_runtime 0 (sample_reply "hi")) (VObj explicit_request))))
    /\ Nim.temperature r = VNum 0.5
    /\ Nim.max_tokens r = VNum 2048
    /\ Nim.stream r = VBool false.
Proof.
  exists (nimRequest (VStr "meta/llama-3.1-70b-instruct") sample_messages
            (VNum 0.5) VUndefined (VBool false)).
  assert (H : In (nimRequest (VStr "meta/llama-3.1-70b-instruct") sample_messages
                    (VNum 0.5) VUndefined (VBool false))
                (sent_upstream (trace (chat_completions sample_env
                   (sample_runtime 0 (sample_reply "hi")) (VObj explicit_request)))))
    by (left; reflexivity).
  split; [exact H |].
  destruct (C1_defaults_and_passthrough _ _ _ _ H)
    as (_ & Hm & _ & Ht & _ & _ & Hs).
  split; [exact (Ht (VNum 0.5) eq_refl eq_refl) |].
  split; [exact (Hm eq_refl) | exact (Hs false eq_refl)].
Defined.

Lemma C10_zero_is_replaced_by_default_witness :
  exists r : Nim.request,
    In r (sent_upstream (trace (chat_completions sample_env
            (sample_runtime 0 (sample_reply "hi"))
            (VObj zero_temperature_request))))
    /\ (Nim.temperature r = VNum 0.7 /\ Nim.temperature r <> VNum 0)
    /\ (Nim.max_tokens r = VNum 2048 /\ Nim.max_tokens r <> VNum 0).
Proof.
  exists (nimRequest (VStr "meta/llama-3.1-70b-instruct") sample_messages
            (VNum 0) (VNum 0) VUndefined).
  assert (H : In (nimRequest (VStr "meta/llama-3.1-70b-instruct") sample_messages
                    (VNum 0) (VNum 0) VUndefined)
                (sent_upstream (trace (chat_completions sample_env
                   (sample_runtime 0 (sample_reply "hi"))
                   (VObj zero_temperature_request)))))
    by (left; reflexivity).
  split; [exact H |].
  destruct (C10_zero_is_replaced_by_default _ _ _ _ 0%float H eq_refl) as (Ht & Hm).
  split; [exact (Ht eq_refl) | exact (Hm eq_refl)].
Defined.

(** ** The missing credential (lines 70-77) *)

Lemma handles_POST_not_GET (route route' : string) (req : request) :
  handles "POST" route req = true -> handles "GET" route' req = false.
Proof.
  unfold handles, method_matches. cbn [String.eqb Ascii.eqb Bool.eqb andb orb].
  rewrite orb_false_r.
  intros H. apply andb_prop in H. destruct H as [H _].
  apply String.eqb_eq in H. rewrite H. reflexivity.
Qed.

(** C2: without a credential every [POST /v1/chat/completions] is answered
    with status 500 and the configuration-error envelope, whatever the
    body and whatever the upstream would have done, and [axios.post] is
    not called. *)
Theorem C2_missing_credential (env : environment) (rt : runtime) (req : request) :
  handles "POST" "/v1/chat/completions" req = true ->
  ToBoolean (NIM_API_KEY env) = false ->
  app env rt req =
    ([res_status 500; res_json (error_body configuration_error)], Normal tt)
  /\ Envelope.type configuration_error = "configuration_error"
  /\ upstream_calls (trace (app env rt req)) = 0%nat.
Proof.
  intros Hroute Hkey.
  assert (Happ : app env rt req =
            ([res_status 500; res_json (error_body configuration_error)], Normal tt)).
  { unfold app.
    rewrite !(handles_POST_not_GET _ _ _ Hroute), Hroute.
    unfold chat_completions, try_block. rewrite Hkey. reflexivity. }
  rewrite Happ. repeat split.
Qed.

Lemma C2_missing_credential_witness :
  app unconfigured_env (sample_runtime 0 (sample_reply "hi"))
      (mk_request "POST" "/v1/chat/completions" VUndefined) =
    ([res_status 500; res_json (error_body configuration_error)], Normal tt)
  /\ Envelope.type configuration_error = "configuration_error"
  /\ upstream_calls (trace (app unconfigured_env (sample_runtime 0 (sample_reply "hi"))
                              (mk_request "POST" "/v1/chat/completions" VUndefined)))
     = 0%nat.
Proof.
  apply (C2_missing_credential unconfigured_env (sample_runtime 0 (sample_reply "hi"))
           (mk_request "POST" "/v1/chat/completions" VUndefined));
    reflexivity.
Defined.

(** ** The [catch] block (lines 153-166) *)

Lemma errorMessage_structured (e : JS.error) :
  errorMessage e =
  match structured_message e with
  | Some m => m
  | None => VStr (message e)
  end.
Proof.
  unfold errorMessage, structured_message.
  destruct (response e) as [r |]; [| reflexivity].
  destruct (data r) as [ | | | | | | props | | | ]; try reflexivity.
  unfold opt_dot at 2. cbn [is_nullish get]. unfold lookup at 1.
  destruct (own props "error") as [err |]; [| reflexivity].
  destruct err as [ | | | | | | error_props | | | ]; try reflexivity.
  unfold opt_dot. cbn [is_nullish get]. unfold lookup.
  destruct (own error_props "message") as [m |]; [| reflexivity].
  unfold or_else. destruct (ToBoolean m); reflexivity.
Qed.

Lemma statusCode_upstream (e : JS.error) :
  (forall r, response e = Some r -> status r <> 0) ->
  statusCode e = upstream_status_or_500 e.
Proof.
  unfold statusCode, upstream_status_or_500. intros Hstatus.
  destruct (response e) as [r |]; [| reflexivity].
  destruct (Z.eqb_spec (status r) 0) as [H0 | _]; [| reflexivity].
  now destruct (Hstatus r eq_refl).
Qed.

(** A rejected upstream call is thrown into the [catch]. *)
Lemma rejection_is_thrown (env : environment) (rt : runtime)
    (req_body v : value) (e : JS.error) :
  ToBoolean (NIM_API_KEY env) = true ->
  is_nullish req_body = false ->
  nimModel_of rt (get req_body "model") = Normal v ->
  upstream rt (url env)
    (nimRequest v (get req_body "messages") (get req_body "temperature")
                (get req_body "max_tokens") (get req_body "stream"))
    (config env (get req_body "stream")) = rejected e ->
  exists tr, try_block env rt req_body = (tr, Throw e).
Proof.
  intros Hkey Hbody Hmodel Hup.
  rewrite (try_block_configured env rt req_body v Hkey Hbody Hmodel).
  rewrite await_axios_post_eq, Hup. eexists. reflexivity.
Qed.

(** Whatever the [try] block throws is answered by the [catch] with the
    envelope of lines 159-165. *)
Lemma thrown_is_answered (env : environment) (rt : runtime)
    (req_body : value) (tr : list effect) (e : JS.error) :
  try_block env rt req_body = (tr, Throw e) ->
  (forall r, response e = Some r -> status r <> 0) ->
  chat_completions env rt req_body =
    ((tr ++ [ res_status (upstream_status_or_500 e);
              res_json (error_body
                {| Envelope.message :=
                     match structured_message e with
                     | Some m => m
                     | None => VStr (message e)
                     end;
                   Envelope.type := "nvidia_api_error";
                   Envelope.code := Some (upstream_status_or_500 e) |}) ])%list,
     Normal tt).
Proof.
  intros Htry Hstatus. unfold chat_completions. rewrite Htry.
  unfold try_catch, on_catch.
  rewrite (statusCode_upstream e Hstatus), errorMessage_structured.
  reflexivity.
Qed.

Example network_failure_envelope :
  trace (chat_completions sample_env (sample_runtime 0 network_failure) sample_request) =
    [ axios_post "https://integrate.api.nvidia.com/v1/chat/completions"
        (nimRequest (VStr "meta/llama-3.1-70b-instruct") sample_messages
                    VUndefined VUndefined (VBool false))
        (config sample_env (VBool false));
      res_status 500;
      res_json (error_body {| Envelope.message := VStr "timeout of 60000ms exceeded";
                              Envelope.type := "nvidia_api_error";
                              Envelope.code := Some 500 |}) ].
Proof. reflexivity. Qed.

Example malformed_reply_envelope :
  trace (chat_completions sample_env (sample_runtime 0 malformed_reply) sample_request) =
    [ axios_post "https://integrate.api.nvidia.com/v1/chat/completions"
        (nimRequest (VStr "meta/llama-3.1-70b-instruct") sample_messages
                    VUndefined VUndefined (VBool false))
        (config sample_env (VBool false));
      res_status 500;
      res_json (error_body
        {| Envelope.message :=
             VStr "Cannot read properties of undefined (reading 'map')";
           Envelope.type := "nvidia_api_error";
           Envelope.code := Some 500 |}) ].
Proof. reflexivity. Qed.

(** ** The non-streaming response (lines 129-150) *)

Lemma shape_choice_copied (choice : value) :
  well_shaped choice -> shape_choice choice = Normal (copied choice).
Proof.
  intros [Hc Hm]. unfold shape_choice, dot. rewrite Hc, Hm. reflexivity.
Qed.

Lemma mapM_shape_choice (choices : list value) :
  Forall well_shaped choices ->
  mapM (fun choice => lift (shape_choice choice)) choices =
  ([], Normal (map copied choices)).
Proof.
  induction 1 as [| c rest Hc _ IH]; [reflexivity |].
  cbn [mapM map]. rewrite (shape_choice_copied c Hc), bind_lift_normal, IH.
  reflexivity.
Qed.

Lemma openaiResponse_well_shaped (rt : runtime) (model : value)
    (props : list (string * value)) (choices : list value) :
  own props "choices" = Some (VArr choices) ->
  Forall well_shaped choices ->
  openaiResponse rt model (VObj props) =
  ([], Normal {| OpenAI.id := chatcmpl_id (Date_now rt 0);
                 OpenAI.object := "chat.completion";
                 OpenAI.created := Date_now rt 1 / 1000;
                 OpenAI.model := model;
                 OpenAI.choices := map copied choices;
                 OpenAI.usage := or_else (lookup props "usage") zero_usage |}).
Proof.
  intros Hchoices Hshape. unfold openaiResponse, dot.
  cbn [is_nullish get]. rewrite bind_lift_normal, (lookup_own _ _ _ Hchoices).
  cbn [map_choices]. rewrite (mapM_shape_choice choices Hshape). reflexivity.
Qed.

(** C5: when the caller did not ask for a stream and the upstream answers
    with a body whose [choices] is an array of readable choices, the
    caller receives one chat completion: its [model] is the one the caller
    sent, its choices are the upstream choices with index, role, content
    and finish reason copied, and its usage is the upstream usage object
    when there is one and the zero counts when the body has none. *)
Theorem C5_non_streaming_success (env : environment) (rt : runtime)
    (props reply : list (string * value)) (v : value) (code : Z)
    (choices : list value) :
  ToBoolean (NIM_API_KEY env) = true ->
  nimModel_of rt (lookup props "model") = Normal v ->
  ToBoolean (lookup props "stream") = false ->
  upstream rt (url env)
    (nimRequest v (lookup props "messages") (lookup props "temperature")
                (lookup props "max_tokens") (lookup props "stream"))
    (config env (lookup props "stream")) = resolved (mk_response code (VObj reply)) ->
  own reply "choices" = Some (VArr choices) ->
  Forall well_shaped choices ->
  exists r : OpenAI.chat_completion,
    chat_completions env rt (VObj props) =
      ([ axios_post (url env)
           (nimRequest v (lookup props "messages") (lookup props "temperature")
                       (lookup props "max_tokens") (lookup props "stream"))
           (config env (lookup props "stream"));
         res_json (completion_body r) ], Normal tt)
    /\ OpenAI.model r = lookup props "model"
    /\ OpenAI.choices r = map copied choices
    /\ (own reply "usage" = None ->
          OpenAI.usage r = VObj [ ("prompt_tokens", VNum 0);
                                  ("completion_tokens", VNum 0);
                                  ("total_tokens", VNum 0) ])
    /\ (forall counts, own reply "usage" = Some (VObj counts) ->
          OpenAI.usage r = VObj counts).
Proof.
  intros Hkey Hmodel Hstream Hup Hchoices Hshape.
  eexists. split.
  - unfold chat_completions.
    rewrite (try_block_configured env rt (VObj props) v Hkey eq_refl Hmodel).
    cbn [get]. rewrite await_axios_post_eq, Hup.
    unfold bind at 1, respond. rewrite Hstream. cbn [data].
    rewrite (openaiResponse_well_shaped rt _ reply choices Hchoices Hshape).
    reflexivity.
  - cbn [OpenAI.model OpenAI.choices OpenAI.usage].
    split; [reflexivity |]. split; [reflexivity |]. split.
    + intros Hnone. rewrite lookup_omitted by (assumption || reflexivity).
      reflexivity.
    + intros counts Hsome. now rewrite (lookup_own _ _ _ Hsome).
Qed.

(** The non-streaming example of the specification. *)
Lemma C5_non_streaming_success_witness :
  exists r : OpenAI.chat_completion,
    chat_completions sample_env (sample_runtime 1700000000123 (sample_reply "hi"))
                     sample_request =
      ([ axios_post "https://integrate.api.nvidia.com/v1/chat/completions"
           (nimRequest (VStr "meta/llama-3.1-70b-instruct") sample_messages
                       VUndefined VUndefined (VBool false))
           (config sample_env (VBool false));
         res_json (completion_body r) ], Normal tt)
    /\ OpenAI.model r = VStr "gpt-4"
    /\ OpenAI.choices r =
         [ {| Choice.index := VNum 0; Choice.role := VStr "assistant";
              Choice.content := VStr "hi"; Choice.finish_reason := VStr "stop" |} ]
    /\ OpenAI.usage r = VObj [ ("prompt_tokens", VNum 0);
                               ("completion_tokens", VNum 0);
                               ("total_tokens", VNum 0) ].
Proof.
  destruct (C5_non_streaming_success sample_env
              (sample_runtime 1700000000123 (sample_reply "hi"))
              [("model", VStr "gpt-4"); ("messages", sample_messages);
               ("stream", VBool false)]
              [("choices", VArr [hi_choice])]
              (VStr "meta/llama-3.1-70b-instruct") 200 [hi_choice]
              eq_refl eq_refl eq_refl eq_refl eq_refl
              (Forall_cons hi_choice (conj eq_refl eq_refl) (Forall_nil _)))
    as (r & Hrun & Hmodel & Hchoices & Husage & _).
  exists r. split; [exact Hrun |]. split; [exact Hmodel |].
  split; [exact Hchoices | exact (Husage eq_refl)].
Defined.

(** ** The streaming path (lines 109-126) *)

Lemma relay_app (evs1 evs2 : list stream_event) :
  relay (evs1 ++ evs2) = (relay evs1 ++ relay evs2)%list.
Proof. apply flat_map_app. Qed.

Lemma relay_data (chunks : list string) :
  relay (map on_data chunks) = map res_write chunks.
Proof.
  induction chunks as [| chunk rest IH]; [reflexivity |].
  unfold relay in *. simpl. now rewrite IH.
Qed.

(** The writes of a relay are the chunks of the stream, in their order,
    whatever else the stream emits. *)
Lemma relay_writes (events : list stream_event) :
  flat_map (fun e => match e with res_write chunk => [chunk] | _ => [] end)
           (relay events) =
  flat_map (fun ev => match ev with on_data chunk => [chunk] | _ => [] end) events.
Proof.
  induction events as [| ev rest IH]; [reflexivity |].
  unfold relay in *. cbn [flat_map]. rewrite flat_map_app, IH.
  destruct ev; reflexivity.
Qed.

(** C6: when the caller asked for a stream and the upstream stream emits
    the chunks and then ends, or emits the chunks and then fails, the
    caller receives the event-stream headers, each chunk as it came and in
    the order it came, and then the end of the response; nothing else is
    written, in particular no error body after a failure. *)
Theorem C6_streaming_passthrough (env : environment) (rt : runtime)
    (props : list (string * value)) (v : value) (code : Z)
    (chunks : list string) (last : stream_event) :
  ToBoolean (NIM_API_KEY env) = true ->
  nimModel_of rt (lookup props "model") = Normal v ->
  ToBoolean (lookup props "stream") = true ->
  upstream rt (url env)
    (nimRequest v (lookup props "messages") (lookup props "temperature")
                (lookup props "max_tokens") (lookup props "stream"))
    (config env (lookup props "stream")) =
    resolved (mk_response code (VStream (map on_data chunks ++ [last]))) ->
  (last = on_end \/ exists err, last = on_error err) ->
  chat_completions env rt (VObj props) =
    (([ axios_post (url env)
          (nimRequest v (lookup props "messages") (lookup props "temperature")
                      (lookup props "max_tokens") (lookup props "stream"))
          (config env (lookup props "stream"));
        res_setHeader "Content-Type" "text/event-stream";
        res_setHeader "Cache-Control" "no-cache";
        res_setHeader "Connection" "keep-alive" ]
      ++ map res_write chunks ++ [res_end])%list,
     Normal tt).
Proof.
  intros Hkey Hmodel Hstream Hup Hlast.
  unfold chat_completions.
  rewrite (try_block_configured env rt (VObj props) v Hkey eq_refl Hmodel).
  cbn [get]. rewrite await_axios_post_eq, Hup.
  unfold bind at 1, respond. rewrite Hstream. cbn [data subscribe].
  rewrite relay_app, relay_data.
  assert (Hend : relay [last] = [res_end])
    by (destruct Hlast as [-> | [err ->]]; reflexivity).
  rewrite Hend. reflexivity.
Qed.

(** A stream that breaks after two chunks. *)
Lemma C6_streaming_passthrough_witness :
  chat_completions sample_env (sample_runtime 0 broken_stream)
                   (VObj streaming_request) =
    (([ axios_post "https://integrate.api.nvidia.com/v1/chat/completions"
          (nimRequest (VStr "meta/llama-3.1-70b-instruct") sample_messages
                      VUndefined VUndefined (VBool true))
          (config sample_env (VBool true));
        res_setHeader "Content-Type" "text/event-stream";
        res_setHeader "Cache-Control" "no-cache";
        res_setHeader "Connection" "keep-alive" ]
      ++ map res_write sample_chunks ++ [res_end])%list,
     Normal tt).
Proof.
  apply (C6_streaming_passthrough sample_env (sample_runtime 0 broken_stream)
           streaming_request (VStr "meta/llama-3.1-70b-instruct") 200
           sample_chunks (on_error "socket hang up")
           eq_refl eq_refl eq_refl eq_refl).
  right. exists "socket hang up". reflexivity.
Defined.

(** ** The synthesized identifier (line 130) *)

Lemma to_int_not_nil (z : Z) :
  Z.to_int z <> Decimal.Pos Decimal.Nil /\ Z.to_int z <> Decimal.Neg Decimal.Nil.
Proof.
  destruct z as [| p | p]; cbn [Z.to_int]; split; try discriminate;
    intros [= H]; now apply (DecimalPos.Unsigned.to_uint_nonnil p).
Qed.

Lemma chatcmpl_id_inj (t1 t2 : Z) : chatcmpl_id t1 = chatcmpl_id t2 -> t1 = t2.
Proof.
  unfold chatcmpl_id. cbn [String.append]. intros [= H].
  apply (f_equal NilZero.int_of_string) in H.
  destruct (to_int_not_nil t1) as [Hp1 Hn1].
  destruct (to_int_not_nil t2) as [Hp2 Hn2].
  rewrite !NilZero.isi in H by assumption.
  injection H as H. now apply DecimalZ.to_int_inj.
Qed.

Lemma openaiResponse_id (rt : runtime) (model data : value)
    (r : OpenAI.chat_completion) :
  snd (openaiResponse rt model data) = Normal r ->
  OpenAI.id r = chatcmpl_id (Date_now rt 0).
Proof.
  unfold openaiResponse.
  destruct (dot data "choices") as [c | e]; [| discriminate].
  rewrite bind_lift_normal.
  destruct (map_choices c) as [tr [cs | e]]; [| discriminate].
  cbn [bind]. destruct (dot data "usage") as [u | e]; [| discriminate].
  cbn. now intros [= <-].
Qed.

Lemma relay_completions (events : list stream_event) :
  completions (relay events) = [].
Proof.
  induction events as [| ev rest IH]; [reflexivity |].
  unfold relay in *. simpl. rewrite completions_app, IH.
  destruct ev; reflexivity.
Qed.

Lemma respond_completions (rt : runtime) (model stream : value)
    (response : http_response) (r : OpenAI.chat_completion) :
  In r (completions (trace (respond rt model stream response))) ->
  OpenAI.id r = chatcmpl_id (Date_now rt 0).
Proof.
  unfold respond. destruct (ToBoolean stream).
  - rewrite !trace_bind. simpl.
    destruct (data response); simpl; try (intros []).
    unfold trace. cbn [fst]. now rewrite relay_completions.
  - rewrite trace_bind, openaiResponse_trace.
    destruct (snd (openaiResponse rt model (data response))) as [r' | e] eqn:Hr;
      [| intros []].
    simpl. intros [<- | []]. now apply openaiResponse_id with model (data response).
Qed.

(** Every chat completion a run of the handler sends carries the
    identifier made from the run's first clock reading. *)
Lemma chat_completions_id (env : environment) (rt : runtime) (req_body : value)
    (r : OpenAI.chat_completion) :
  In r (completions (trace (chat_completions env rt req_body))) ->
  OpenAI.id r = chatcmpl_id (Date_now rt 0).
Proof.
  unfold chat_completions. rewrite trace_try_catch, completions_app.
  assert (Hcatch : completions
            match snd (try_block env rt req_body) with
            | Normal _ => []
            | Throw e => trace (on_catch e)
            end = []) by (destruct (snd (try_block env rt req_body)); reflexivity).
  rewrite Hcatch, app_nil_r. clear Hcatch.
  destruct (ToBoolean (NIM_API_KEY env)) eqn:Hkey;
    [| unfold try_block; rewrite Hkey; intros []].
  destruct (is_nullish req_body) eqn:Hbody;
    [unfold try_block, destructure; rewrite Hkey, Hbody; intros [] |].
  destruct (nimModel_of rt (get req_body "model")) as [v | e] eqn:Hmodel.
  - rewrite (try_block_configured env rt req_body v Hkey Hbody Hmodel).
    rewrite trace_bind, completions_app, await_axios_post_eq. cbn [trace fst snd].
    destruct (upstream rt _ _ _); [| intros []].
    apply respond_completions.
  - unfold try_block, destructure. rewrite Hkey, Hbody. cbn [negb].
    rewrite bind_lift_normal, Hmodel. intros [].
Qed.

(** C7 as stated fails: two requests handled within the same millisecond
    receive different responses that carry one and the same identifier. *)
Lemma C7_same_millisecond_same_id :
  exists r1 r2 : OpenAI.chat_completion,
    In r1 (completions (trace (chat_completions sample_env
             (sample_runtime 1700000000123 (sample_reply "yes")) sample_request)))
    /\ In r2 (completions (trace (chat_completions sample_env
             (sample_runtime 1700000000123 (sample_reply "no")) sample_request)))
    /\ r1 <> r2
    /\ OpenAI.id r1 = OpenAI.id r2.
Proof.
  do 2 eexists. split; [left; reflexivity |]. split; [left; reflexivity |].
  split; [discriminate | reflexivity].
Qed.

(** C7, as the code has it: the identifiers of two responses differ
    exactly when the clock readings (in milliseconds) taken for them
    differ. *)
Theorem C7_ids_differ_iff_clock_differs (env1 env2 : environment)
    (rt1 rt2 : runtime) (body1 body2 : value) (r1 r2 : OpenAI.chat_completion) :
  In r1 (completions (trace (chat_completions env1 rt1 body1))) ->
  In r2 (completions (trace (chat_completions env2 rt2 body2))) ->
  (OpenAI.id r1 <> OpenAI.id r2 <-> Date_now rt1 0 <> Date_now rt2 0).
Proof.
  intros H1 H2.
  rewrite (chat_completions_id env1 rt1 body1 r1 H1).
  rewrite (chat_completions_id env2 rt2 body2 r2 H2).
  split; intros Hneq Heq; apply Hneq.
  - now rewrite Heq.
  - now apply chatcmpl_id_inj.
Qed.

Lemma C7_ids_differ_iff_clock_differs_witness :
  exists r1 r2 : OpenAI.chat_completion,
    In r1 (completions (trace (chat_completions sample_env
             (sample_runtime 1700000000123 (sample_reply "yes")) sample_request)))
    /\ In r2 (completions (trace (chat_completions sample_env
             (sample_runtime 1700000000124 (sample_reply "yes")) sample_request)))
    /\ (OpenAI.id r1 <> OpenAI.id r2
        <-> Date_now (sample_runtime 1700000000123 (sample_reply "yes")) 0
            <> Date_now (sample_runtime 1700000000124 (sample_reply "yes")) 0).
Proof.
  do 2 eexists.
  split; [left; reflexivity |]. split; [left; reflexivity |].
  apply (C7_ids_differ_iff_clock_differs sample_env sample_env
           (sample_runtime 1700000000123 (sample_reply "yes"))
           (sample_runtime 1700000000124 (sample_reply "yes"))
           sample_request sample_request);
    left; reflexivity.
Defined.

(** ** The catch-all (lines 170-177) *)


(** * Further properties of the handlers *)

(** ** Exceptions of the engine *)

Lemma ToString_array (f : float -> string) (elems : list value) :
  ToString f (VArr elems) = join (ToString f) elems.
Proof.
  cbn [ToString]. induction elems as [| a rest IH]; [reflexivity |].
  cbn [join]. rewrite <- IH. reflexivity.
Qed.

Lemma join_throws (render : value -> completion string) (l : list value)
    (e : JS.error) :
  (forall v err, In v l -> render v = Throw err -> response err = None) ->
  join render l = Throw e -> response e = None.
Proof.
  induction l as [| a rest IH]; [discriminate |].
  intros Hrender. cbn [join].
  assert (Hrest : forall v err, In v rest -> render v = Throw err -> response err = None)
    by (intros v err Hin; apply Hrender; now right).
  destruct (if is_nullish a then Normal "" else render a) as [s | err] eqn:Ha.
  - destruct rest as [| a' rest']; [discriminate |].
    destruct (join render (a' :: rest')) as [t | err] eqn:Hjoin; [discriminate |].
    intros [= <-]. now apply IH.
  - intros [= <-]. destruct (is_nullish a); [discriminate |].
    apply (Hrender a err); [now left | assumption].
Qed.

(** Whatever ToString throws is a plain TypeError: it carries no upstream
    response. *)
Lemma ToString_throws (f : float -> string) :
  forall (v : value) (e : JS.error),
    ToString f v = Throw e -> response e = None.
Proof.
  fix IH 1. intros v e.
  destruct v as [ | | b | x | s | elems | props | name | | events];
    try discriminate.
  - destruct b; discriminate.
  - rewrite ToString_array. apply join_throws.
    induction elems as [| a rest IHrest]; [intros v err [] |].
    intros v err [<- | Hin]; [apply IH | now apply IHrest].
  - cbn [ToString]. destruct (own props "toString"); [| discriminate].
    now intros [= <-].
Qed.

Lemma nimModel_of_throws (rt : runtime) (model : value) (e : JS.error) :
  nimModel_of rt model = Throw e -> response e = None.
Proof.
  unfold nimModel_of, ToPropertyKey.
  destruct (ToString (Number_toString rt) model) as [key | err] eqn:Hkey;
    [discriminate |].
  intros [= <-]. now apply ToString_throws with (Number_toString rt) model.
Qed.

Lemma bind_lift_throw_eq {A B : Type} (e : JS.error) (k : A -> M B) :
  bind (lift (Throw e)) k = ([], Throw e).
Proof. reflexivity. Qed.

Lemma on_catch_internal (e : JS.error) :
  response e = None ->
  on_catch e =
  ([res_status 500; res_json (error_body (internal_error (message e)))], Normal tt).
Proof.
  intros He. unfold on_catch, statusCode, errorMessage, internal_error.
  rewrite He. reflexivity.
Qed.

(** ** How often the upstream is called *)

(** X1: a run of the chat handler calls [axios.post] at most once, and
    exactly once when there is a credential, the body can be destructured
    and the model has a property key; nothing is retried. *)
Theorem upstream_called_at_most_once (env : environment) (rt : runtime)
    (req_body : value) :
  (upstream_calls (trace (chat_completions env rt req_body)) <= 1)%nat
  /\ (upstream_calls (trace (chat_completions env rt req_body)) = 1%nat
      <-> ToBoolean (NIM_API_KEY env) = true
          /\ is_nullish req_body = false
          /\ exists v, nimModel_of rt (get req_body "model") = Normal v).
Proof.
  unfold upstream_calls. rewrite chat_completions_sent_upstream.
  destruct (ToBoolean (NIM_API_KEY env)); cbn [andb];
    [| split; [cbn; lia | split; [discriminate | intros (H & _); discriminate]]].
  destruct (is_nullish req_body); cbn [negb];
    [split; [cbn; lia | split; [discriminate | intros (_ & H & _); discriminate]] |].
  destruct (nimModel_of rt (get req_body "model")) as [v | e].
  - split; [cbn; lia |]. split; [| reflexivity].
    intros _. repeat split. now exists v.
  - split; [cbn; lia |]. split; [discriminate |].
    intros (_ & _ & v & Hv). discriminate.
Qed.

(** X2: the routes other than the chat route never call the upstream. *)
Theorem other_routes_never_call_upstream (env : environment) (rt : runtime)
    (req : request) :
  handles "POST" "/v1/chat/completions" req = false ->
  upstream_calls (trace (app env rt req)) = 0%nat.
Proof.
  intros Hchat. unfold app. rewrite Hchat.
  destruct (handles "GET" "/health" req); [reflexivity |].
  destruct (handles "GET" "/" req); [reflexivity |].
  destruct (handles "GET" "/v1/models" req); reflexivity.
Qed.

Lemma other_routes_never_call_upstream_witness :
  upstream_calls (trace (app sample_env (sample_runtime 0 (sample_reply "hi"))
                           (mk_request "GET" "/v1/models" VUndefined))) = 0%nat.
Proof.
  apply (other_routes_never_call_upstream sample_env
           (sample_runtime 0 (sample_reply "hi"))
           (mk_request "GET" "/v1/models" VUndefined)).
  reflexivity.
Defined.

(** ** Failures before the upstream call *)

(** X3: with a credential configured, a run that does not reach the
    upstream is answered with status 500 and an envelope of type
    [nvidia_api_error] and code 500, and with nothing else. *)
Theorem no_upstream_call_is_internal_error (env : environment) (rt : runtime)
    (req_body : value) :
  ToBoolean (NIM_API_KEY env) = true ->
  upstream_calls (trace (chat_completions env rt req_body)) = 0%nat ->
  exists msg : string,
    chat_completions env rt req_body =
    ([res_status 500; res_json (error_body (internal_error msg))], Normal tt).
Proof.
  intros Hkey. unfold upstream_calls. rewrite chat_completions_sent_upstream, Hkey.
  cbn [andb]. unfold chat_completions, try_block, destructure. rewrite Hkey. cbn [negb].
  destruct (is_nullish req_body); cbn [negb].
  - intros _. eexists. reflexivity.
  - rewrite bind_lift_normal.
    destruct (nimModel_of rt (get req_body "model")) as [v | e] eqn:Hmodel;
      [discriminate |].
    intros _. exists (message e). rewrite bind_lift_throw_eq.
    cbn [try_catch]. rewrite (on_catch_internal e (nimModel_of_throws _ _ _ Hmodel)).
    reflexivity.
Qed.

Lemma no_upstream_call_is_internal_error_witness :
  exists msg : string,
    chat_completions sample_env (sample_runtime 0 (sample_reply "hi")) VUndefined =
    ([res_status 500; res_json (error_body (internal_error msg))], Normal tt).
Proof.
  apply (no_upstream_call_is_internal_error sample_env
           (sample_runtime 0 (sample_reply "hi")) VUndefined);
    reflexivity.
Defined.

(** X4: a request without a body ([req.body] undefined or null), and a
    request whose [model] is an object with a [toString] entry of its
    own, never reach the upstream. *)
Theorem unreadable_request_never_reaches_upstream (env : environment)
    (rt : runtime) (req_body : value) :
  is_nullish req_body = true
  \/ (exists model_props x, get req_body "model" = VObj model_props
                            /\ own model_props "toString" = Some x) ->
  upstream_calls (trace (chat_completions env rt req_body)) = 0%nat.
Proof.
  unfold upstream_calls. rewrite chat_completions_sent_upstream.
  intros [Hbody | (model_props & x & Hmodel & Hown)].
  - rewrite Hbody, andb_false_r. reflexivity.
  - destruct (ToBoolean (NIM_API_KEY env) && negb (is_nullish req_body));
      [| reflexivity].
    unfold nimModel_of, ToPropertyKey. rewrite Hmodel. cbn [ToString].
    rewrite Hown. reflexivity.
Qed.

Lemma unreadable_request_never_reaches_upstream_witness :
  upstream_calls (trace (chat_completions sample_env
     (sample_runtime 0 (sample_reply "hi")) model_with_toString)) = 0%nat.
Proof.
  apply (unreadable_request_never_reaches_upstream sample_env
           (sample_runtime 0 (sample_reply "hi")) model_with_toString).
  right. exists [("toString", VStr "gpt-4")], (VStr "gpt-4").
  split; reflexivity.
Defined.

(** ** Which upstream model is asked for *)

(** The model of a request handed to the upstream is what line 82 yields
    for the [model] of the body. *)
Lemma sent_request_model (env : environment) (rt : runtime) (req_body : value)
    (r : Nim.request) :
  In r (sent_upstream (trace (chat_completions env rt req_body))) ->
  nimModel_of rt (get req_body "model") = Normal (Nim.model r).
Proof.
  rewrite chat_completions_sent_upstream.
  destruct (ToBoolean (NIM_API_KEY env) && negb (is_nullish req_body));
    [| intros []].
  destruct (nimModel_of rt (get req_body "model")); [| intros []].
  now intros [<- | []].
Qed.

(** X5: a [model] given as a one-element array is resolved like its
    element (the property key of [[x]] is the one of [x]). *)
Theorem array_model_resolves_like_its_element (rt : runtime) (v : value) :
  is_nullish v = false ->
  nimModel_of rt (VArr [v]) = nimModel_of rt v.
Proof.
  intros Hv. unfold nimModel_of, ToPropertyKey. cbn [ToString]. rewrite Hv.
  destruct (ToString (Number_toString rt) v); reflexivity.
Qed.

Lemma array_model_resolves_like_its_element_witness :
  nimModel_of (sample_runtime 0 (sample_reply "hi")) (VArr [VStr "gpt-4o"])
  = nimModel_of (sample_runtime 0 (sample_reply "hi")) (VStr "gpt-4o").
Proof.
  apply (array_model_resolves_like_its_element
           (sample_runtime 0 (sample_reply "hi")) (VStr "gpt-4o")).
  reflexivity.
Defined.

Lemma own_In {A : Type} (props : list (string * A)) (k : string) (v : A) :
  own props k = Some v -> In v (map snd props).
Proof.
  induction props as [| [k' v'] rest IH]; [discriminate |].
  cbn [own map snd]. destruct (k' =? k)%string.
  - intros [= <-]. now left.
  - intros H. right. now apply IH.
Qed.

(** X6: for an identifier that is not the name of a property of
    Object.prototype, the upstream model is one of the values of the
    table, whether the identifier is a key or not. *)
Theorem nimModel_in_table (id : string) :
  Object_prototype_get id = VUndefined ->
  In (nimModel id) (map snd MODEL_MAPPING).
Proof.
  intros Hproto. destruct (own MODEL_MAPPING id) as [v |] eqn:Hown.
  - rewrite (nimModel_configured id v Hown). now apply own_In with id.
  - rewrite (nimModel_absent id Hown Hproto). left. reflexivity.
Qed.

Lemma nimModel_in_table_witness :
  In (nimModel "mistral-large") (map snd MODEL_MAPPING).
Proof.
  apply (nimModel_in_table "mistral-large"). reflexivity.
Defined.

(** X7: a body with no [model], or with [model] null or a boolean, is sent
    to the upstream with the model of ["gpt-3.5-turbo"]. *)
Theorem missing_model_gets_default (env : environment) (rt : runtime)
    (props : list (string * value)) (r : Nim.request) :
  In r (sent_upstream (trace (chat_completions env rt (VObj props)))) ->
  own props "model" = None
  \/ own props "model" = Some VNull
  \/ (exists b, own props "model" = Some (VBool b)) ->
  Nim.model r = VStr "meta/llama-3.1-8b-instruct".
Proof.
  intros Hr Hmodel. apply sent_request_model in Hr. cbn [get] in Hr.
  unfold lookup in Hr.
  destruct Hmodel as [H | [H | [b H]]]; rewrite H in Hr.
  - now injection Hr as <-.
  - now injection Hr as <-.
  - destruct b; now injection Hr as <-.
Qed.

Lemma missing_model_gets_default_witness :
  exists r : Nim.request,
    In r (sent_upstream (trace (chat_completions sample_env
            (sample_runtime 0 (sample_reply "hi"))
            (VObj [("messages", sample_messages)]))))
    /\ Nim.model r = VStr "meta/llama-3.1-8b-instruct".
Proof.
  exists (nimRequest (VStr "meta/llama-3.1-8b-instruct") sample_messages
            VUndefined VUndefined VUndefined).
  assert (H : In (nimRequest (VStr "meta/llama-3.1-8b-instruct") sample_messages
                    VUndefined VUndefined VUndefined)
                (sent_upstream (trace (chat_completions sample_env
                   (sample_runtime 0 (sample_reply "hi"))
                   (VObj [("messages", sample_messages)])))))
    by (left; reflexivity).
  split; [exact H |].
  apply (missing_model_gets_default sample_env
           (sample_runtime 0 (sample_reply "hi"))
           [("messages", sample_messages)] _ H).
  left. reflexivity.
Defined.

(** ** The model list (lines 53-65) *)

Lemma models_from_ids (rt : runtime) (keys : list string) :
  forall n, map Model.id (models_from rt n keys) = keys.
Proof.
  induction keys as [| k rest IH]; intros n; [reflexivity |].
  cbn [models_from map Model.id]. now rewrite IH.
Qed.

Lemma models_from_entry (rt : runtime) (keys : list string) :
  forall n i m,
    nth_error (models_from rt n keys) i = Some m ->
    nth_error keys i = Some (Model.id m)
    /\ Model.object m = "model"
    /\ Model.created m = Date_now rt (n + i)
    /\ Model.owned_by m = "nvidia-nim-proxy".
Proof.
  induction keys as [| k rest IH]; intros n i m.
  - destruct i; discriminate.
  - destruct i as [| i]; cbn [models_from nth_error].
    + intros [= <-]. rewrite Nat.add_0_r. repeat split.
    + intros H. destruct (IH (S n) i m H) as (Hk & Ho & Hc & Hb).
      rewrite Nat.add_succ_r. now repeat split.
Qed.

Lemma own_of_key {A : Type} (props : list (string * A)) (k : string) :
  In k (Object_keys props) -> exists v, own props k = Some v.
Proof.
  induction props as [| [k' v'] rest IH]; [intros [] |].
  cbn [Object_keys map fst own]. intros Hin.
  destruct (String.eqb_spec k' k) as [_ | Hneq]; [now exists v' |].
  destruct Hin as [Heq | Hin]; [now destruct Hneq |]. now apply IH.
Qed.

(** X8: [GET /v1/models] answers with one entry per key of the table, in
    the order of the table; the i-th entry carries the i-th reading of the
    clock, and the chat route resolves every listed identifier to the
    table's own value for it, not to the fallback. *)
Theorem models_lists_the_table (rt : runtime) :
  exists l : list Model.t,
    models rt = ([res_json (models_body "list" l)], Normal tt)
    /\ map Model.id l = Object_keys MODEL_MAPPING
    /\ forall i m, nth_error l i = Some m ->
         Model.object m = "model"
         /\ Model.owned_by m = "nvidia-nim-proxy"
         /\ Model.created m = Date_now rt i
         /\ own MODEL_MAPPING (Model.id m) = Some (nimModel (Model.id m)).
Proof.
  exists (models_from rt 0 (Object_keys MODEL_MAPPING)).
  split; [reflexivity |]. split; [apply models_from_ids |].
  intros i m Hm.
  destruct (models_from_entry rt _ 0 i m Hm) as (Hk & Ho & Hc & Hb).
  repeat split; try assumption.
  apply nth_error_In in Hk.
  destruct (own_of_key MODEL_MAPPING (Model.id m) Hk) as [v Hv].
  now rewrite (nimModel_configured _ v Hv).
Qed.

(** ** The health route (lines 31-37) *)

(** X9: [GET /health] reports [api_configured: false] exactly when the
    chat route answers with the configuration error. *)
Theorem health_agrees_with_chat (env : environment) (rt : runtime)
    (req_body : value) :
  exists api_configured : bool,
    health env =
      ([res_json (health_body "ok" service_name api_configured)], Normal tt)
    /\ (api_configured = false
        <-> chat_completions env rt req_body =
            ([res_status 500; res_json (error_body configuration_error)], Normal tt)).
Proof.
  exists (ToBoolean (NIM_API_KEY env)). split; [reflexivity |].
  destruct (ToBoolean (NIM_API_KEY env)) eqn:Hkey.
  - split; [discriminate |]. intros Hrun. exfalso.
    assert (Hsent := chat_completions_sent_upstream env rt req_body).
    rewrite Hrun, Hkey in Hsent. cbn in Hsent.
    revert Hrun. unfold chat_completions, try_block, destructure.
    rewrite Hkey. cbn [negb].
    destruct (is_nullish req_body); cbn [negb] in *; [discriminate |].
    rewrite bind_lift_normal.
    destruct (nimModel_of rt (get req_body "model")) as [v | e] eqn:Hmodel;
      [discriminate |].
    rewrite bind_lift_throw_eq. cbn [try_catch].
    rewrite (on_catch_internal e (nimModel_of_throws _ _ _ Hmodel)).
    discriminate.
  - split; [| reflexivity]. intros _.
    unfold chat_completions, try_block. rewrite Hkey. reflexivity.
Qed.

(** ** The arguments of the upstream call (lines 96-107) *)

Lemma sent_upstream_of_posts (tr : list effect) :
  sent_upstream tr = map (fun p => snd (fst p)) (upstream_posts tr).
Proof.
  induction tr as [| e rest IH]; [reflexivity |].
  unfold sent_upstream, upstream_posts in *. cbn [flat_map].
  rewrite map_app, IH. destruct e; reflexivity.
Qed.

Lemma upstream_posts_app (t1 t2 : list effect) :
  upstream_posts (t1 ++ t2) = (upstream_posts t1 ++ upstream_posts t2)%list.
Proof. apply flat_map_app. Qed.

Lemma no_sent_no_posts (tr : list effect) :
  sent_upstream tr = [] -> upstream_posts tr = [].
Proof.
  rewrite sent_upstream_of_posts. destruct (upstream_posts tr); [reflexivity |].
  discriminate.
Qed.

Lemma chat_completions_upstream_posts (env : environment) (rt : runtime)
    (req_body : value) (p : string * Nim.request * axios_config) :
  In p (upstream_posts (trace (chat_completions env rt req_body))) ->
  ToBoolean (NIM_API_KEY env) = true
  /\ exists v,
       p = (url env,
            nimRequest v (get req_body "messages") (get req_body "temperature")
                       (get req_body "max_tokens") (get req_body "stream"),
            config env (get req_body "stream")).
Proof.
  unfold chat_completions. rewrite trace_try_catch, upstream_posts_app.
  assert (Hcatch : upstream_posts
            match snd (try_block env rt req_body) with
            | Normal _ => []
            | Throw e => trace (on_catch e)
            end = []) by (destruct (snd (try_block env rt req_body)); reflexivity).
  rewrite Hcatch, app_nil_r. clear Hcatch.
  destruct (ToBoolean (NIM_API_KEY env)) eqn:Hkey;
    [| unfold try_block; rewrite Hkey; intros []].
  destruct (is_nullish req_body) eqn:Hbody;
    [unfold try_block, destructure; rewrite Hkey, Hbody; intros [] |].
  destruct (nimModel_of rt (get req_body "model")) as [v | e] eqn:Hmodel.
  - rewrite (try_block_configured env rt req_body v Hkey Hbody Hmodel).
    rewrite trace_bind, upstream_posts_app, await_axios_post_eq. cbn [trace fst snd].
    destruct (upstream rt _ _ _) as [resp | err].
    + assert (Hrest := no_sent_no_posts _
                (respond_sent_upstream rt (get req_body "model")
                   (get req_body "stream") resp)).
      rewrite Hrest.
      intros [<- | []]. split; [reflexivity |]. now exists v.
    + intros [<- | []]. split; [reflexivity |]. now exists v.
  - unfold try_block, destructure. rewrite Hkey, Hbody. cbn [negb].
    rewrite bind_lift_normal, Hmodel. intros [].
Qed.

Lemma ToBoolean_or_false (v : value) :
  ToBoolean (or_else v (VBool false)) = ToBoolean v.
Proof. unfold or_else. destruct (ToBoolean v) eqn:Hv; [exact Hv | reflexivity]. Qed.

(** X10: every call of [axios.post] goes to the configured base (the
    public endpoint when [NIM_API_BASE] is unset or empty) followed by
    [/chat/completions], carries the credential as a bearer token and the
    JSON content type, has a timeout of 60000 ms, and asks axios for a
    stream exactly when the request it sends has a truthy [stream]. *)
Theorem upstream_call_arguments (env : environment) (rt : runtime)
    (req_body : value) (u : string) (d : Nim.request) (c : axios_config) :
  In (u, d, c) (upstream_posts (trace (chat_completions env rt req_body))) ->
  (exists key,
      env_NIM_API_KEY env = Some key /\ key <> ""
      /\ headers c = [ ("Authorization", "Bearer " ++ key);
                       ("Content-Type", "application/json") ])
  /\ timeout c = 60000
  /\ responseType c = (if ToBoolean (Nim.stream d) then "stream" else "json")
  /\ u = match env_NIM_API_BASE env with
         | Some base => if (base =? "")%string then default_base else base
         | None => default_base
         end ++ "/chat/completions".
Proof.
  intros Hin.
  destruct (chat_completions_upstream_posts env rt req_body _ Hin)
    as (Hkey & v & [= -> -> ->]).
  split; [| split; [reflexivity | split]].
  - unfold NIM_API_KEY in Hkey. unfold config, NIM_API_KEY.
    destruct (env_NIM_API_KEY env) as [key |]; [| discriminate].
    exists key. split; [reflexivity |]. split; [| reflexivity].
    intros ->. discriminate.
  - cbn [config responseType nimRequest Nim.stream].
    now rewrite ToBoolean_or_false.
  - unfold url, NIM_API_BASE, default_base.
    destruct (env_NIM_API_BASE env) as [base |]; [| reflexivity].
    cbn [getenv]. unfold or_else. cbn [ToBoolean].
    destruct (base =? "")%string; reflexivity.
Qed.

Lemma upstream_call_arguments_witness :
  (exists key,
      env_NIM_API_KEY sample_env = Some key /\ key <> ""
      /\ headers (config sample_env (VBool true))
         = [ ("Authorization", "Bearer " ++ key);
             ("Content-Type", "application/json") ])
  /\ timeout (config sample_env (VBool true)) = 60000
  /\ responseType (config sample_env (VBool true)) = "stream"
  /\ "https://integrate.api.nvidia.com/v1/chat/completions"
     = default_base ++ "/chat/completions".
Proof.
  apply (upstream_call_arguments sample_env (sample_runtime 0 broken_stream)
           (VObj streaming_request)
           "https://integrate.api.nvidia.com/v1/chat/completions"
           (nimRequest (VStr "meta/llama-3.1-70b-instruct") sample_messages
                       VUndefined VUndefined (VBool true))
           (config sample_env (VBool true))).
  left. reflexivity.
Defined.

(** ** Every chat completion that is sent (lines 129-150) *)

Lemma openaiResponse_eq (rt : runtime) (model data : value) :
  openaiResponse rt model data = ([], snd (openaiResponse rt model data)).
Proof.
  rewrite <- (openaiResponse_trace rt model data). unfold trace.
  now destruct (openaiResponse rt model data).
Qed.

Lemma openaiResponse_fields (rt : runtime) (model data : value)
    (r : OpenAI.chat_completion) :
  snd (openaiResponse rt model data) = Normal r ->
  OpenAI.object r = "chat.completion"
  /\ OpenAI.created r = Date_now rt 1 / 1000
  /\ OpenAI.model r = model
  /\ OpenAI.usage r = or_else (get data "usage") zero_usage
  /\ exists choices, get data "choices" = VArr choices
                     /\ length (OpenAI.choices r) = length choices.
Proof.
  unfold openaiResponse, dot.
  destruct (is_nullish data); [discriminate |].
  rewrite bind_lift_normal.
  destruct (get data "choices") as [ | | | | | elems | | | | ] eqn:Hchoices;
    try discriminate.
  cbn [map_choices].
  assert (Hlen : forall l cs tr,
            mapM (fun choice => lift (shape_choice choice)) l = (tr, Normal cs) ->
            length cs = length l).
  { induction l as [| c rest IH]; intros cs tr.
    - now intros [= <- <-].
    - cbn [mapM]. destruct (shape_choice c) as [s | e]; [| discriminate].
      rewrite bind_lift_normal.
      destruct (mapM (fun choice => lift (shape_choice choice)) rest)
        as [tr' [cs' | e]] eqn:Hrest; [| discriminate].
      cbn. intros [= <- <-]. cbn [length]. f_equal. now apply (IH cs' tr'). }
  destruct (mapM (fun choice => lift (shape_choice choice)) elems)
    as [tr [cs | e]] eqn:Hmap; [| discriminate].
  cbn. intros [= <-]. cbn.
  repeat split. exists elems. split; [reflexivity |]. now apply (Hlen elems cs tr).
Qed.

Lemma respond_completion_origin (rt : runtime) (model stream : value)
    (response : http_response) (r : OpenAI.chat_completion) :
  In r (completions (trace (respond rt model stream response))) ->
  ToBoolean stream = false
  /\ snd (openaiResponse rt model (data response)) = Normal r.
Proof.
  unfold respond. destruct (ToBoolean stream).
  - rewrite !trace_bind. simpl.
    destruct (data response); simpl; try (intros []).
    unfold trace. cbn [fst]. now rewrite relay_completions.
  - rewrite trace_bind, openaiResponse_trace.
    destruct (snd (openaiResponse rt model (data response))) as [r' | e] eqn:Hr;
      [| intros []].
    simpl. intros [<- | []]. now split.
Qed.

(** Every chat completion a run sends was built by lines 129-147 from the
    [model] of the body and the data of the upstream response, for a
    request whose [stream] is falsy. *)
Lemma chat_completions_completion_origin (env : environment) (rt : runtime)
    (req_body : value) (r : OpenAI.chat_completion) :
  In r (completions (trace (chat_completions env rt req_body))) ->
  ToBoolean (get req_body "stream") = false
  /\ exists data,
       snd (openaiResponse rt (get req_body "model") data) = Normal r.
Proof.
  unfold chat_completions. rewrite trace_try_catch, completions_app.
  assert (Hcatch : completions
            match snd (try_block env rt req_body) with
            | Normal _ => []
            | Throw e => trace (on_catch e)
            end = []) by (destruct (snd (try_block env rt req_body)); reflexivity).
  rewrite Hcatch, app_nil_r. clear Hcatch.
  destruct (ToBoolean (NIM_API_KEY env)) eqn:Hkey;
    [| unfold try_block; rewrite Hkey; intros []].
  destruct (is_nullish req_body) eqn:Hbody;
    [unfold try_block, destructure; rewrite Hkey, Hbody; intros [] |].
  destruct (nimModel_of rt (get req_body "model")) as [v | e] eqn:Hmodel.
  - rewrite (try_block_configured env rt req_body v Hkey Hbody Hmodel).
    rewrite trace_bind, completions_app, await_axios_post_eq. cbn [trace fst snd].
    destruct (upstream rt _ _ _) as [resp | err]; [| intros []].
    intros Hin. apply respond_completion_origin in Hin.
    destruct Hin as [Hstream Hr]. split; [exact Hstream |]. now exists (data resp).
  - unfold try_block, destructure. rewrite Hkey, Hbody. cbn [negb].
    rewrite bind_lift_normal, Hmodel. intros [].
Qed.

(** X11: whatever the upstream answered, a chat completion that is sent
    has the kind tag [chat.completion], carries the [model] of the body as
    it came (string or not, resolved through the table or through the
    fallback), and has a truthy usage: a usage the upstream sends as null,
    zero, false or the empty string is replaced by the zero counts. *)
Theorem sent_completion_invariants (env : environment) (rt : runtime)
    (req_body : value) (r : OpenAI.chat_completion) :
  In r (completions (trace (chat_completions env rt req_body))) ->
  OpenAI.object r = "chat.completion"
  /\ OpenAI.model r = get req_body "model"
  /\ ToBoolean (OpenAI.usage r) = true
  /\ ToBoolean (get req_body "stream") = false.
Proof.
  intros Hin.
  destruct (chat_completions_completion_origin env rt req_body r Hin)
    as (Hstream & data & Hr).
  destruct (openaiResponse_fields rt _ data r Hr) as (Ho & _ & Hm & Hu & _).
  repeat split; try assumption.
  rewrite Hu. now apply or_else_truthy.
Qed.

Lemma sent_completion_invariants_witness :
  exists r : OpenAI.chat_completion,
    In r (completions (trace (chat_completions sample_env
            (sample_runtime 1700000000123 (sample_reply "hi")) sample_request)))
    /\ OpenAI.object r = "chat.completion"
    /\ OpenAI.model r = VStr "gpt-4"
    /\ ToBoolean (OpenAI.usage r) = true
    /\ ToBoolean (get sample_request "stream") = false.
Proof.
  eexists. split; [left; reflexivity |].
  apply (sent_completion_invariants sample_env
           (sample_runtime 1700000000123 (sample_reply "hi")) sample_request).
  left. reflexivity.
Defined.

(** X12: [created] is the second that contains the second clock reading
    of the run: the reading in milliseconds lies in
    [[1000 * created, 1000 * created + 999]], also for a clock set before
    1970. *)
Theorem created_is_the_second_of_the_clock (env : environment) (rt : runtime)
    (req_body : value) (r : OpenAI.chat_completion) :
  In r (completions (trace (chat_completions env rt req_body))) ->
  1000 * OpenAI.created r <= Date_now rt 1 <= 1000 * OpenAI.created r + 999.
Proof.
  intros Hin.
  destruct (chat_completions_completion_origin env rt req_body r Hin)
    as (_ & data & Hr).
  destruct (openaiResponse_fields rt _ data r Hr) as (_ & Hc & _).
  rewrite Hc.
  pose proof (Z.div_mod (Date_now rt 1) 1000 ltac:(lia)) as Hdiv.
  pose proof (Z.mod_pos_bound (Date_now rt 1) 1000 ltac:(lia)) as Hmod.
  lia.
Qed.

Lemma created_is_the_second_of_the_clock_witness :
  exists r : OpenAI.chat_completion,
    In r (completions (trace (chat_completions sample_env
            (sample_runtime (-1500) (sample_reply "hi")) sample_request)))
    /\ 1000 * OpenAI.created r
       <= Date_now (sample_runtime (-1500) (sample_reply "hi")) 1
       <= 1000 * OpenAI.created r + 999.
Proof.
  eexists. split; [left; reflexivity |].
  apply (created_is_the_second_of_the_clock sample_env
           (sample_runtime (-1500) (sample_reply "hi")) sample_request).
  left. reflexivity.
Defined.

(** ** Upstream bodies that cannot be reshaped (lines 134-141) *)

Lemma readable_well_shaped (choice : value) :
  readable choice = true -> well_shaped choice.
Proof.
  unfold readable, well_shaped. intros H. apply andb_prop in H.
  destruct H as [H1 H2]. split; now apply negb_true_iff.
Qed.

Lemma shape_choice_unreadable (choice : value) :
  readable choice = false ->
  exists msg, shape_choice choice = Throw (TypeError msg).
Proof.
  unfold readable, shape_choice, dot. intros H.
  destruct (is_nullish choice); [eexists; reflexivity |].
  cbn [negb andb] in H. apply negb_false_iff in H. rewrite H.
  eexists. reflexivity.
Qed.

(** The first unreadable choice stops the whole [map]. *)
Lemma mapM_unreadable (choices : list value) :
  forallb readable choices = false ->
  exists msg,
    mapM (fun choice => lift (shape_choice choice)) choices
    = ([], Throw (TypeError msg)).
Proof.
  induction choices as [| c rest IH]; [discriminate |].
  cbn [forallb mapM]. destruct (readable c) eqn:Hc; cbn [andb].
  - intros Hrest. destruct (IH Hrest) as [msg Hmsg]. exists msg.
    rewrite (shape_choice_copied c (readable_well_shaped c Hc)).
    rewrite bind_lift_normal, Hmsg. reflexivity.
  - intros _. destruct (shape_choice_unreadable c Hc) as [msg Hmsg].
    exists msg. now rewrite Hmsg.
Qed.

Lemma openaiResponse_not_reshapable (rt : runtime) (model data : value) :
  ~ reshapable data ->
  exists msg, openaiResponse rt model data = ([], Throw (TypeError msg)).
Proof.
  unfold reshapable, openaiResponse, dot. intros Hnot.
  destruct (is_nullish data) eqn:Hdata; [eexists; reflexivity |].
  rewrite bind_lift_normal.
  destruct (get data "choices") as [ | | | | | elems | | | | ] eqn:Hchoices;
    try (eexists; reflexivity).
  cbn [map_choices].
  destruct (forallb readable elems) eqn:Hall.
  - destruct Hnot. split; [reflexivity |]. now exists elems.
  - destruct (mapM_unreadable elems Hall) as [msg Hmsg]. exists msg.
    now rewrite Hmsg.
Qed.

(** X13: when the caller did not ask for a stream and the upstream
    answers with a success whose body cannot be reshaped (no body, no
    [choices] array, or an array with a choice that is null or has no
    [message]), the caller gets status 500 and an [nvidia_api_error]
    envelope with code 500; no part of the upstream answer is passed on. *)
Theorem malformed_success_is_internal_error (env : environment) (rt : runtime)
    (req_body v data : value) (code : Z) :
  ToBoolean (NIM_API_KEY env) = true ->
  is_nullish req_body = false ->
  nimModel_of rt (get req_body "model") = Normal v ->
  ToBoolean (get req_body "stream") = false ->
  upstream rt (url env)
    (nimRequest v (get req_body "messages") (get req_body "temperature")
                (get req_body "max_tokens") (get req_body "stream"))
    (config env (get req_body "stream")) = resolved (mk_response code data) ->
  ~ reshapable data ->
  exists msg : string,
    chat_completions env rt req_body =
    ([ axios_post (url env)
         (nimRequest v (get req_body "messages") (get req_body "temperature")
                     (get req_body "max_tokens") (get req_body "stream"))
         (config env (get req_body "stream"));
       res_status 500;
       res_json (error_body (internal_error msg)) ], Normal tt).
Proof.
  intros Hkey Hbody Hmodel Hstream Hup Hnot.
  destruct (openaiResponse_not_reshapable rt (get req_body "model") data Hnot)
    as [msg Hmsg].
  exists msg. unfold chat_completions.
  rewrite (try_block_configured env rt req_body v Hkey Hbody Hmodel).
  rewrite await_axios_post_eq, Hup.
  unfold bind at 1, respond. rewrite Hstream. cbn [JS.data]. rewrite Hmsg.
  reflexivity.
Qed.

Lemma malformed_success_is_internal_error_witness :
  exists msg : string,
    chat_completions sample_env (sample_runtime 0 unreadable_reply) sample_request =
    ([ axios_post (url sample_env)
         (nimRequest (VStr "meta/llama-3.1-70b-instruct") sample_messages
                     VUndefined VUndefined (VBool false))
         (config sample_env (VBool false));
       res_status 500;
       res_json (error_body (internal_error msg)) ], Normal tt).
Proof.
  apply (malformed_success_is_internal_error sample_env
           (sample_runtime 0 unreadable_reply) sample_request
           (VStr "meta/llama-3.1-70b-instruct")
           (VObj [("choices", VArr [hi_choice; VNull])]) 200
           eq_refl eq_refl eq_refl eq_refl eq_refl).
  intros (_ & choices & Hget & Hall).
  injection Hget as <-. discriminate Hall.
Defined.

(** ** How often the caller is answered *)

Lemma json_bodies_app (t1 t2 : list effect) :
  json_bodies (t1 ++ t2) = (json_bodies t1 ++ json_bodies t2)%list.
Proof. apply flat_map_app. Qed.

Lemma relay_json_bodies (events : list stream_event) :
  json_bodies (relay events) = [].
Proof.
  induction events as [| ev rest IH]; [reflexivity |].
  unfold relay in *. simpl. rewrite json_bodies_app, IH.
  destruct ev; reflexivity.
Qed.

Lemma respond_eq (rt : runtime) (model stream : value) (resp : http_response) :
  respond rt model stream resp =
  if ToBoolean stream then
    (([ res_setHeader "Content-Type" "text/event-stream";
        res_setHeader "Cache-Control" "no-cache";
        res_setHeader "Connection" "keep-alive" ]
      ++ fst (subscribe (data resp)))%list,
     snd (subscribe (data resp)))
  else
    match snd (openaiResponse rt model (data resp)) with
    | Normal r => ([res_json (completion_body r)], Normal tt)
    | Throw e => ([], Throw e)
    end.
Proof.
  unfold respond. destruct (ToBoolean stream).
  - destruct (subscribe (data resp)) as [tr [[] | e]]; reflexivity.
  - rewrite openaiResponse_eq.
    destruct (snd (openaiResponse rt model (data resp))); reflexivity.
Qed.

(** The bodies sent to the caller by a computation run under the [catch]:
    those of the computation, and one more when it throws. *)
Lemma json_bodies_try_catch (m : M unit) :
  length (json_bodies (trace (try_catch m on_catch))) =
  (length (json_bodies (trace m))
   + match snd m with Normal _ => 0 | Throw _ => 1 end)%nat.
Proof.
  rewrite trace_try_catch, json_bodies_app, length_app.
  destruct (snd m); reflexivity.
Qed.

Lemma subscribe_json_bodies (d : value) :
  (length (json_bodies (fst (subscribe d)))
   + match snd (subscribe d) with Normal _ => 0 | Throw _ => 1 end <= 1)%nat.
Proof.
  destruct d; cbn; try lia. rewrite relay_json_bodies. cbn. lia.
Qed.

(** X14: a run of the chat handler hands at most one body to [res.json],
    and exactly one when the body of the request has a falsy [stream]:
    every request that is not streamed is answered exactly once. *)
Theorem answered_once (env : environment) (rt : runtime) (req_body : value) :
  (length (json_bodies (trace (chat_completions env rt req_body))) <= 1)%nat
  /\ (ToBoolean (get req_body "stream") = false ->
      length (json_bodies (trace (chat_completions env rt req_body))) = 1%nat).
Proof.
  unfold chat_completions. rewrite json_bodies_try_catch.
  destruct (ToBoolean (NIM_API_KEY env)) eqn:Hkey;
    [| unfold try_block; rewrite Hkey; cbn; split; [lia | reflexivity]].
  destruct (is_nullish req_body) eqn:Hbody;
    [unfold try_block, destructure; rewrite Hkey, Hbody; cbn;
     split; [lia | reflexivity] |].
  destruct (nimModel_of rt (get req_body "model")) as [v | e] eqn:Hmodel.
  - rewrite (try_block_configured env rt req_body v Hkey Hbody Hmodel).
    rewrite await_axios_post_eq.
    destruct (upstream rt _ _ _) as [resp | err];
      [| cbn; split; [lia | reflexivity]].
    unfold bind. rewrite respond_eq.
    destruct (ToBoolean (get req_body "stream")).
    + pose proof (subscribe_json_bodies (data resp)) as Hsub.
      cbn [trace fst snd]. change (json_bodies ([?a] ++ ?l)) with (json_bodies l).
      rewrite json_bodies_app. cbn [json_bodies flat_map app length Nat.add].
      split; [exact Hsub | discriminate].
    + destruct (snd (openaiResponse rt _ (data resp))); cbn;
        split; (lia || reflexivity).
  - unfold try_block, destructure. rewrite Hkey, Hbody. cbn [negb].
    rewrite bind_lift_normal, Hmodel. cbn. split; [lia | reflexivity].
Qed.

Lemma answered_once_witness :
  length (json_bodies (trace (chat_completions sample_env
     (sample_runtime 0 rate_limited) sample_request))) = 1%nat.
Proof.
  apply (proj2 (answered_once sample_env (sample_runtime 0 rate_limited)
                  sample_request)).
  reflexivity.
Defined.

(** ** The relay, on any stream (lines 115-126) *)

Lemma relay_ends (events : list stream_event) :
  ends (relay events) = terminations events.
Proof.
  induction events as [| ev rest IH]; [reflexivity |].
  unfold ends, terminations, relay in *. cbn [flat_map filter].
  rewrite filter_app, length_app, IH. destruct ev; reflexivity.
Qed.

(** X15: for a streamed request and whatever the upstream stream emits,
    the caller is written exactly the chunks of the stream, in their
    order, the response is ended once per [end] or [error] of the stream
    (not at all while the stream has emitted neither), and no status and
    no JSON body is sent. *)
Theorem streamed_run (env : environment) (rt : runtime)
    (req_body v : value) (code : Z) (events : list stream_event) :
  ToBoolean (NIM_API_KEY env) = true ->
  is_nullish req_body = false ->
  nimModel_of rt (get req_body "model") = Normal v ->
  ToBoolean (get req_body "stream") = true ->
  upstream rt (url env)
    (nimRequest v (get req_body "messages") (get req_body "temperature")
                (get req_body "max_tokens") (get req_body "stream"))
    (config env (get req_body "stream"))
    = resolved (mk_response code (VStream events)) ->
  chat_completions env rt req_body =
    (([ axios_post (url env)
          (nimRequest v (get req_body "messages") (get req_body "temperature")
                      (get req_body "max_tokens") (get req_body "stream"))
          (config env (get req_body "stream"));
        res_setHeader "Content-Type" "text/event-stream";
        res_setHeader "Cache-Control" "no-cache";
        res_setHeader "Connection" "keep-alive" ] ++ relay events)%list,
     Normal tt)
  /\ writes (trace (chat_completions env rt req_body)) = data_chunks events
  /\ ends (trace (chat_completions env rt req_body)) = terminations events
  /\ json_bodies (trace (chat_completions env rt req_body)) = [].
Proof.
  intros Hkey Hbody Hmodel Hstream Hup.
  assert (Hrun : chat_completions env rt req_body =
    (([ axios_post (url env)
          (nimRequest v (get req_body "messages") (get req_body "temperature")
                      (get req_body "max_tokens") (get req_body "stream"))
          (config env (get req_body "stream"));
        res_setHeader "Content-Type" "text/event-stream";
        res_setHeader "Cache-Control" "no-cache";
        res_setHeader "Connection" "keep-alive" ] ++ relay events)%list,
     Normal tt)).
  { unfold chat_completions.
    rewrite (try_block_configured env rt req_body v Hkey Hbody Hmodel).
    rewrite await_axios_post_eq, Hup. unfold bind at 1.
    rewrite respond_eq, Hstream. reflexivity. }
  rewrite Hrun. split; [reflexivity |]. cbn [trace fst app].
  split; [| split].
  - unfold writes. cbn [flat_map app]. apply relay_writes.
  - unfold ends. cbn [filter]. apply relay_ends.
  - unfold json_bodies. cbn [flat_map app]. apply relay_json_bodies.
Qed.

(** A stream that has emitted two chunks and neither ended nor failed:
    two writes, the response still open. *)
Lemma streamed_run_witness :
  writes (trace (chat_completions sample_env (sample_runtime 0 endless_stream)
                   (VObj streaming_request))) = sample_chunks
  /\ ends (trace (chat_completions sample_env (sample_runtime 0 endless_stream)
                    (VObj streaming_request))) = 0%nat
  /\ json_bodies (trace (chat_completions sample_env (sample_runtime 0 endless_stream)
                           (VObj streaming_request))) = [].
Proof.
  apply (proj2 (streamed_run sample_env (sample_runtime 0 endless_stream)
                  (VObj streaming_request) (VStr "meta/llama-3.1-70b-instruct")
                  200 (map on_data sample_chunks)
                  eq_refl eq_refl eq_refl eq_refl eq_refl)).
Defined.

(** ** The answer of the [catch] (lines 153-166) *)

Lemma truthy_not_nullish (v : value) : ToBoolean v = true -> is_nullish v = false.
Proof. destruct v; (reflexivity || discriminate). Qed.

(** X16: whatever is thrown, the [catch] answers with one status and one
    envelope: the status is never 0, the envelope's code is that status,
    its type is [nvidia_api_error], and its message is neither undefined
    nor null. *)
Theorem catch_answer (e : JS.error) :
  exists (c : Z) (envelope : Envelope.t),
    on_catch e = ([res_status c; res_json (error_body envelope)], Normal tt)
    /\ c <> 0
    /\ Envelope.code envelope = Some c
    /\ Envelope.type envelope = "nvidia_api_error"
    /\ is_nullish (Envelope.message envelope) = false.
Proof.
  eexists. eexists. split; [reflexivity |]. cbn.
  split; [| split; [reflexivity | split; [reflexivity |]]].
  - unfold statusCode. destruct (response e) as [r |]; [| discriminate].
    destruct (Z.eqb_spec (status r) 0); [discriminate | assumption].
  - unfold errorMessage, or_else.
    destruct (ToBoolean _) eqn:Hm; [now apply truthy_not_nullish | reflexivity].
Qed.

(** ** Upstream errors without a structured body *)

Lemma errorMessage_unstructured (e : JS.error) (r : http_response) :
  response e = Some r ->
  (forall props, data r <> VObj props) ->
  errorMessage e = VStr (message e).
Proof.
  intros Hr Hdata. unfold errorMessage. rewrite Hr.
  destruct (data r) as [ | | | | | | props | | | ]; try reflexivity.
  now destruct (Hdata props).
Qed.

(** X17: when the upstream call is rejected with a response whose body is
    not a parsed object (a text body, or the unread stream axios hands
    over for a streamed request), the caller gets the upstream status and
    an envelope whose message is the description axios gave of the
    failure. *)
Theorem unstructured_upstream_error (env : environment) (rt : runtime)
    (req_body v : value) (e : JS.error) (r : http_response) :
  ToBoolean (NIM_API_KEY env) = true ->
  is_nullish req_body = false ->
  nimModel_of rt (get req_body "model") = Normal v ->
  upstream rt (url env)
    (nimRequest v (get req_body "messages") (get req_body "temperature")
                (get req_body "max_tokens") (get req_body "stream"))
    (config env (get req_body "stream")) = rejected e ->
  response e = Some r ->
  status r <> 0 ->
  (forall props, data r <> VObj props) ->
  chat_completions env rt req_body =
    ([ axios_post (url env)
         (nimRequest v (get req_body "messages") (get req_body "temperature")
                     (get req_body "max_tokens") (get req_body "stream"))
         (config env (get req_body "stream"));
       res_status (status r);
       res_json (error_body {| Envelope.message := VStr (message e);
                               Envelope.type := "nvidia_api_error";
                               Envelope.code := Some (status r) |}) ],
     Normal tt).
Proof.
  intros Hkey Hbody Hmodel Hup Hr Hstatus Hdata.
  unfold chat_completions.
  rewrite (try_block_configured env rt req_body v Hkey Hbody Hmodel).
  rewrite await_axios_post_eq, Hup. cbn [bind try_catch]. unfold on_catch.
  rewrite (errorMessage_unstructured e r Hr Hdata).
  unfold statusCode. rewrite Hr.
  destruct (Z.eqb_spec (status r) 0) as [H0 | _]; [now destruct Hstatus |].
  reflexivity.
Qed.

Lemma unstructured_upstream_error_witness :
  chat_completions sample_env (sample_runtime 0 streamed_rate_limit)
                   (VObj streaming_request) =
    ([ axios_post (url sample_env)
         (nimRequest (VStr "meta/llama-3.1-70b-instruct") sample_messages
                     VUndefined VUndefined (VBool true))
         (config sample_env (VBool true));
       res_status 429;
       res_json (error_body
         {| Envelope.message := VStr "Request failed with status code 429";
            Envelope.type := "nvidia_api_error";
            Envelope.code := Some 429 |}) ],
     Normal tt).
Proof.
  apply (unstructured_upstream_error sample_env
           (sample_runtime 0 streamed_rate_limit) (VObj streaming_request)
           (VStr "meta/llama-3.1-70b-instruct")
           (mk_error "Request failed with status code 429"
              (Some (mk_response 429 (VStream [on_data rate_limit_bytes; on_end]))))
           (mk_response 429 (VStream [on_data rate_limit_bytes; on_end]))
           eq_refl eq_refl eq_refl eq_refl eq_refl).
  - cbn. lia.
  - intros props. discriminate.
Defined.

(** ** What is forwarded of the body (lines 85-87) *)

(** X18: the [messages] of the body reach the upstream as they came,
    whatever they are; the model sent is what line 82 yields for the
    [model] of the body; and the temperature and max_tokens sent are never
    falsy (never 0, null or missing). *)
Theorem messages_forwarded_unchanged (env : environment) (rt : runtime)
    (req_body : value) (r : Nim.request) :
  In r (sent_upstream (trace (chat_completions env rt req_body))) ->
  Nim.messages r = get req_body "messages"
  /\ nimModel_of rt (get req_body "model") = Normal (Nim.model r)
  /\ ToBoolean (Nim.temperature r) = true
  /\ ToBoolean (Nim.max_tokens r) = true.
Proof.
  rewrite chat_completions_sent_upstream.
  destruct (ToBoolean (NIM_API_KEY env) && negb (is_nullish req_body));
    [| intros []].
  destruct (nimModel_of rt (get req_body "model")); [| intros []].
  intros [<- | []]. cbn [nimRequest Nim.messages Nim.model Nim.temperature
                          Nim.max_tokens].
  repeat split; now apply or_else_truthy.
Qed.

Lemma messages_forwarded_unchanged_witness :
  exists r : Nim.request,
    In r (sent_upstream (trace (chat_completions sample_env
            (sample_runtime 0 (sample_reply "hi"))
            (VObj zero_temperature_request))))
    /\ Nim.messages r = sample_messages
    /\ ToBoolean (Nim.temperature r) = true
    /\ ToBoolean (Nim.max_tokens r) = true.
Proof.
  eexists.
  assert (H : In (nimRequest (VStr "meta/llama-3.1-70b-instruct") sample_messages
                    (VNum 0) (VNum 0) VUndefined)
                (sent_upstream (trace (chat_completions sample_env
                   (sample_runtime 0 (sample_reply "hi"))
                   (VObj zero_temperature_request)))))
    by (left; reflexivity).
  split; [exact H |].
  destruct (messages_forwarded_unchanged _ _ _ _ H) as (Hm & _ & Ht & Hx).
  split; [exact Hm | split; [exact Ht | exact Hx]].
Defined.

Lemma models_lists_the_table_witness :
  exists m : Model.t,
    nth_error (models_from (sample_runtime 5 (sample_reply "hi")) 0
                 (Object_keys MODEL_MAPPING)) 1 = Some m
    /\ Model.id m = "gpt-4"
    /\ Model.created m = 6
    /\ own MODEL_MAPPING (Model.id m) = Some (nimModel (Model.id m)).
Proof.
  destruct (models_lists_the_table (sample_runtime 5 (sample_reply "hi")))
    as (l & Hrun & _ & Hall).
  injection Hrun as <-.
  eexists. split; [reflexivity |]. split; [reflexivity |].
  destruct (Hall 1%nat _ eq_refl) as (_ & _ & Hc & Hown).
  split; [exact Hc | exact Hown].
Defined.

(** * The claims that do not hold as stated *)

(** ** Model resolution on what a caller can send (line 82) *)

(** C9, at a [model] that is an object with a [toString] entry of its
    own, and at the identifier ["constructor"]: ["gpt-3.5-turbo"] is a key
    of the table, yet line 82 throws a TypeError on the first (the caller
    is answered 500 and the upstream is not called), and on the second it
    yields a function of Object.prototype, not a model. *)
Theorem C9_resolution_fails (rt : runtime) :
  In "gpt-3.5-turbo" (Object_keys MODEL_MAPPING)
  /\ nimModel_of rt (VObj [("toString", VStr "gpt-4")])
     = Throw (TypeError "Cannot convert object to primitive value")
  /\ chat_completions sample_env rt model_with_toString
     = ([ res_status 500;
          res_json (error_body
            {| Envelope.message := VStr "Cannot convert object to primitive value";
               Envelope.type := "nvidia_api_error";
               Envelope.code := Some 500 |}) ], Normal tt)
  /\ nimModel_of rt (VStr "constructor") = Normal (VNative "constructor")
  /\ ~ In (VNative "constructor") (map snd MODEL_MAPPING).
Proof.
  split; [left; reflexivity |]. split; [reflexivity |]. split; [reflexivity |].
  split; [reflexivity |].
  cbn. intros H. repeat (destruct H as [H | H]; [discriminate H |]). exact H.
Qed.

(** ** The message of the envelope (lines 104, 157) *)




(** ** Requests that match no route (lines 10-11, 170-177) *)


(** A body that [express.json()] refuses is answered by Express's error
    handler, whatever the path, and reaches no route. *)
Lemma refused_body_reaches_no_route (env : environment) (rt : runtime)
    (req : incoming) (status : Z) :
  toUpperCase (in_method req) <> "OPTIONS" ->
  json req = refused status ->
  server env rt req =
    ([res_setHeader "Access-Control-Allow-Origin" "*"; finalhandler status],
     Normal tt).
Proof.
  intros Hmethod Hjson. unfold server, cors.
  destruct (String.eqb_spec (toUpperCase (in_method req)) "OPTIONS") as [H | _];
    [now destruct Hmethod |].
  rewrite Hjson. reflexivity.
Qed.


